(** * ThinkNet: the real-time synchronisation and presence engine

    A shallow embedding of the server [src/thinknet-backend.cjs]: the
    Socket.IO handlers (connection, join_mindmap, node_update, cursor_move,
    disconnect) and the REST routes that write a mind map
    (PUT and DELETE /api/mindmaps/:id, POST .../comments/:nodeId,
    POST .../collaborators); and of two callbacks of the editor, the ThinkNet
    React component ([src/unnamed/part_000]): [scheduleAutoSave] and
    [deleteNode].

    Conventions of the model.
    - The MindMap collection is a finite map from document id to
      [MindMap.t]; [findById] is a lookup, and [save()] writes the document
      back when it passes the [required] validators of the schemas (lines
      61-116 of the backend) and throws otherwise. Casts of ill-typed JSON,
      malformed ids and I/O failures are not modelled.
    - The User collection is a finite map from user name to user id.
    - A handler runs atomically: the interleaving of two handlers at an
      [await] is outside the model. The clock is read once per handler.
    - Socket.IO rooms are a finite map from room name to the set of socket
      ids in the room; [socket.to(r).emit] reaches every socket of the room
      but the sender, [io.to(r).emit] every socket of the room, and a socket
      has left its rooms when its [disconnect] handler runs.
    - A JavaScript [Set] of objects compares its members by identity. Every
      object literal evaluated by a handler is a fresh allocation, so the
      server state carries an allocation counter and a set member carries
      its address.
    - A string is a sequence of code units below 256; times are milliseconds
      since the epoch; node coordinates are carried as integers and are
      never computed with. *)

From stdpp Require Import gmap strings list fin_maps pretty.
From Stdlib Require Import ZArith NArith Ascii Lia.

Open Scope string_scope.

(** ** JavaScript strings *)

Module Js.

(** The white space and line terminator code units that
    [String.prototype.trim] strips, among the code units below 256:
    TAB, LF, VT, FF, CR, SP and NBSP. *)
Definition is_space (c : ascii) : bool :=
  let n := Ascii.N_of_ascii c in
  ((9 <=? n) && (n <=? 13) || (n =? 32) || (n =? 160))%N.

Fixpoint trimStart (s : string) : string :=
  match s with
  | String c s' => if is_space c then trimStart s' else s
  | EmptyString => EmptyString
  end.

Definition trimEnd (s : string) : string :=
  String.rev (trimStart (String.rev s)).

Definition trim (s : string) : string := trimEnd (trimStart s).

(** Truthiness of a value that is either [undefined] or a string: the
    empty string is falsy. *)
Definition truthy (v : option string) : option string :=
  match v with
  | Some "" => None
  | _ => v
  end.

(** [a || b] on strings. *)
Definition or_else (a : option string) (b : string) : string :=
  match truthy a with
  | Some s => s
  | None => b
  end.

(** An object with identity: [addr] is where the literal was allocated. *)
Record Obj (A : Type) := mkObj { addr : nat; val : A }.
Arguments mkObj {A} _ _.
Arguments addr {A} _.
Arguments val {A} _.

(** [Set.prototype.has / add / delete] on a set of objects, kept in
    insertion order as [Array.from] enumerates it. *)
Definition set_has {A} (o : Obj A) (s : list (Obj A)) : bool :=
  existsb (fun o' => addr o' =? addr o)%nat s.

Definition set_add {A} (o : Obj A) (s : list (Obj A)) : list (Obj A) :=
  if set_has o s then s else (s ++ [o])%list.

Definition set_delete {A} (o : Obj A) (s : list (Obj A)) : list (Obj A) :=
  filter (fun o' => addr o' ≠ addr o) s.

(** [Array.prototype.findIndex]; [None] stands for -1. *)
Fixpoint findIndex {A} (p : A -> bool) (l : list A) : option nat :=
  match l with
  | [] => None
  | a :: l' => if p a then Some 0%nat else S <$> findIndex p l'
  end.

End Js.

(** ** Mongoose *)

Module Mongoose.

Fixpoint includes_dot (s : string) : bool :=
  match s with
  | "" => false
  | String c s' => (c =? ".")%char || includes_dot s'
  end.

Definition startsWith_dollar (s : string) : bool :=
  match s with
  | String c _ => (c =? "$")%char
  | "" => false
  end.

(** The check that [set] of a Mongoose [Map] makes on its key, which
    throws when it fails: a key may not start with [$], may not contain [.]
    and may not be one of three reserved names. *)
Definition checkValidKey (key : string) : bool :=
  negb (startsWith_dollar key)
  && negb (includes_dot key)
  && negb (bool_decide (key ∈ ["__proto__"; "constructor"; "prototype"])).

End Mongoose.

(** ** Documents (the Mongoose schemas) *)

Inductive Permission := read | write | admin.

Module Collaborator.
Record t := mk { user : string; permission : Permission }.
End Collaborator.

Module Node.
Record t := mk {
  id : string; x : Z; y : Z; text : string; level : Z; color : string;
  createdBy : string; createdAt : N; updatedAt : N }.

(** [required: true] on a String path rejects the empty string. *)
Definition valid (n : t) : bool :=
  negb (id n =? "") && negb (text n =? "") && negb (color n =? "")
  && negb (createdBy n =? "").
End Node.

Module Link.
Record t := mk { source : string; target : string }.

Definition valid (l : t) : bool :=
  negb (source l =? "") && negb (target l =? "").
End Link.

Module Comment.
Record t := mk {
  id : string; text : string; author : string; authorId : string;
  timestamp : N }.

Definition valid (c : t) : bool :=
  negb (id c =? "") && negb (text c =? "") && negb (author c =? "")
  && negb (authorId c =? "").
End Comment.

Module MindMap.
Record t := mk {
  title : string;
  description : string;
  nodes : list Node.t;
  links : list Link.t;
  comments : gmap string (list Comment.t);
  owner : string;
  collaborators : list Collaborator.t;
  isPublic : bool;
  tags : list string;
  createdAt : N;
  updatedAt : N;
  lastModifiedBy : option string }.

(** What [save()] validates: the required paths of the document and of
    its sub-documents. *)
Definition valid (m : t) : bool :=
  negb (title m =? "")
  && forallb Node.valid (nodes m)
  && forallb Link.valid (links m)
  && forallb (fun kv => forallb Comment.valid kv.2)
             (map_to_list (comments m)).

Definition ids (m : t) : list string := Node.id <$> nodes m.

Definition texts (m : t) : list string := Node.text <$> nodes m.
End MindMap.

(** The partial node carried by a [node_update] event: a field is [None]
  when the key is absent from the payload. *)
Module Updates.
Record t := mk {
  id : option string; x : option Z; y : option Z; text : option string;
  level : option Z; color : option string; createdBy : option string;
  createdAt : option N; updatedAt : option N }.

Definition empty : t := mk None None None None None None None None None.

(** [Object.assign(node, updates)]: every key present in [updates]
    overwrites the node's field. *)
Definition assign (n : Node.t) (u : t) : Node.t :=
  Node.mk (default (Node.id n) (id u))
          (default (Node.x n) (x u))
          (default (Node.y n) (y u))
          (default (Node.text n) (text u))
          (default (Node.level n) (level u))
          (default (Node.color n) (color u))
          (default (Node.createdBy n) (createdBy u))
          (default (Node.createdAt n) (createdAt u))
          (default (Node.updatedAt n) (updatedAt u)).
End Updates.

(** ** The server state *)

(** The [{ id, username }] object of the presence events. *)
Module Presence.
Record t := mk { id : string; username : string }.
End Presence.

(** What [socketAuth] and [join_mindmap] store on a socket. *)
Module Socket.
Record t := mk {
  userId : string;
  username : string;
  currentMindmap : option string }.

Definition presence (s : t) : Presence.t :=
  Presence.mk (userId s) (username s).
End Socket.

Inductive Event :=
| error (message : string)
| active_users (users : list Presence.t)
| user_joined (u : Presence.t)
| user_left (u : Presence.t)
| node_updated (nodeId : string) (updates : Updates.t) (updatedBy : string)
| cursor_moved (userId username : string) (x y : Z)
| comment_added (nodeId : string) (comment : Comment.t)
| mindmap_updated (mindmap : MindMap.t).

(** What a handler does to the outside: an event delivered to the socket
    [to], a document written by [save()], a document deleted. *)
Inductive Effect :=
| Deliver (to : nat) (e : Event)
| Saved (docId : string) (m : MindMap.t)
| Removed (docId : string).

Module Server.
Record t := mk {
  db : gmap string MindMap.t;
  users : gmap string string;
  sockets : gmap nat Socket.t;
  rooms : gmap string (gset nat);
  activeUsers : gmap string (list (Js.Obj Presence.t));
  nextAddr : nat }.

Definition with_db (f : gmap string MindMap.t -> gmap string MindMap.t)
    (st : t) : t :=
  mk (f (db st)) (users st) (sockets st) (rooms st) (activeUsers st)
     (nextAddr st).

Definition with_sockets (f : gmap nat Socket.t -> gmap nat Socket.t)
    (st : t) : t :=
  mk (db st) (users st) (f (sockets st)) (rooms st) (activeUsers st)
     (nextAddr st).

Definition with_rooms (f : gmap string (gset nat) -> gmap string (gset nat))
    (st : t) : t :=
  mk (db st) (users st) (sockets st) (f (rooms st)) (activeUsers st)
     (nextAddr st).

Definition with_activeUsers
    (f : gmap string (list (Js.Obj Presence.t))
         -> gmap string (list (Js.Obj Presence.t)))
    (st : t) : t :=
  mk (db st) (users st) (sockets st) (rooms st) (f (activeUsers st))
     (nextAddr st).

(** Evaluating an object literal. *)
Definition alloc {A} (v : A) (st : t) : Js.Obj A * t :=
  (Js.mkObj (nextAddr st) v,
   mk (db st) (users st) (sockets st) (rooms st) (activeUsers st)
      (S (nextAddr st))).
End Server.

(** *** Socket.IO rooms *)

Definition room_of (mindmapId : string) : string := "mindmap:" +:+ mindmapId.

Definition members (st : Server.t) (room : string) : gset nat :=
  default ∅ (Server.rooms st !! room).

(** [socket.join(room)]. *)
Definition socket_join (sid : nat) (room : string) (st : Server.t)
    : Server.t :=
  Server.with_rooms (fun r => <[room := {[sid]} ∪ default ∅ (r !! room)]> r) st.

(** What Socket.IO does before it fires [disconnect]: the socket leaves
    every room. *)
Definition socket_leave_all (sid : nat) (st : Server.t) : Server.t :=
  Server.with_rooms (fun r => (fun s => s ∖ {[sid]}) <$> r) st.

(** [socket.emit(e)]. *)
Definition emit (sid : nat) (e : Event) : list Effect := [Deliver sid e].

(** [socket.to(room).emit(e)]: every socket of the room but the sender. *)
Definition to_emit (st : Server.t) (sid : nat) (room : string) (e : Event)
    : list Effect :=
  (fun t => Deliver t e) <$> elements (members st room ∖ {[sid]}).

(** [io.to(room).emit(e)]: every socket of the room. *)
Definition io_emit (st : Server.t) (room : string) (e : Event)
    : list Effect :=
  (fun t => Deliver t e) <$> elements (members st room).

(** The events a trace delivers to the socket [t], in order. *)
Fixpoint delivered (t : nat) (out : list Effect) : list Event :=
  match out with
  | [] => []
  | Deliver t' e :: out' =>
      if (t' =? t)%nat then e :: delivered t out' else delivered t out'
  | _ :: out' => delivered t out'
  end.

(** The documents a trace writes, in order. *)
Fixpoint saves (out : list Effect) : list (string * MindMap.t) :=
  match out with
  | [] => []
  | Saved i m :: out' => (i, m) :: saves out'
  | _ :: out' => saves out'
  end.

(** ** The access checks *)

(** [hasAccess] of [join_mindmap], of the GET route and of the comment
    route (lines 318, 464, 568). *)
Definition hasAccess (userId : string) (mindmap : MindMap.t) : bool :=
  (MindMap.owner mindmap =? userId)
  || existsb (fun c => Collaborator.user c =? userId)
             (MindMap.collaborators mindmap)
  || MindMap.isPublic mindmap.

Definition includes_write_admin (p : Permission) : bool :=
  match p with
  | write | admin => true
  | read => false
  end.

(** [canEdit] of the PUT route (line 380). *)
Definition canEdit (userId : string) (mindmap : MindMap.t) : bool :=
  (MindMap.owner mindmap =? userId)
  || existsb (fun c => (Collaborator.user c =? userId)
                       && includes_write_admin (Collaborator.permission c))
             (MindMap.collaborators mindmap).

(** ** The Socket.IO handlers *)

(** A connection that [socketAuth] has let through, lines 142-162: the
    socket carries the id and the name of the verified token, and is in no
    room. Socket ids are not reused while the socket is connected. *)
Definition connect (st : Server.t) (sid : nat) (userId username : string)
    : Server.t * list Effect :=
  match Server.sockets st !! sid with
  | Some _ => (st, [])
  | None =>
    (Server.with_sockets (insert sid (Socket.mk userId username None)) st, [])
  end.

(** [socket.on("join_mindmap", ...)], lines 560-602. [mindmapId] stands
    for a string that Mongoose casts to an ObjectId, as the id of every
    stored mind map is. For any other string [findById] throws, and the
    [catch] of lines 598-601 emits the error "Server error" to the socket
    where this definition has "Mind map not found"; the state and the
    recipient are the same. *)
Definition join_mindmap (st : Server.t) (sid : nat) (mindmapId : string)
    : Server.t * list Effect :=
  match Server.sockets st !! sid with
  | None => (st, [])
  | Some socket =>
    match Server.db st !! mindmapId with
    | None => (st, emit sid (error "Mind map not found"))
    | Some mindmap =>
      if negb (hasAccess (Socket.userId socket) mindmap)
      then (st, emit sid (error "Access denied"))
      else
        let st1 := socket_join sid (room_of mindmapId) st in
        let st2 :=
          Server.with_sockets
            (insert sid (Socket.mk (Socket.userId socket)
                                   (Socket.username socket)
                                   (Some mindmapId))) st1 in
        let set0 := default [] (Server.activeUsers st2 !! mindmapId) in
        let '(o, st3) := Server.alloc (Socket.presence socket) st2 in
        let set1 := Js.set_add o set0 in
        let st4 := Server.with_activeUsers (insert mindmapId set1) st3 in
        let users : list Presence.t := Js.val <$> set1 in
        (st4,
         (to_emit st4 sid (room_of mindmapId)
                  (user_joined (Socket.presence socket))
          ++ emit sid (active_users users))%list)
    end
  end.

(** The document after [Object.assign(mindmap.nodes[nodeIndex], updates)]
    and the two assignments that follow it. *)
Definition assign_node (mindmap : MindMap.t) (nodeIndex : nat)
    (updates : Updates.t) (now : N) (userId : string) : MindMap.t :=
  MindMap.mk (MindMap.title mindmap) (MindMap.description mindmap)
    (alter (fun n => Updates.assign n updates) nodeIndex
           (MindMap.nodes mindmap))
    (MindMap.links mindmap) (MindMap.comments mindmap)
    (MindMap.owner mindmap) (MindMap.collaborators mindmap)
    (MindMap.isPublic mindmap) (MindMap.tags mindmap)
    (MindMap.createdAt mindmap) now (Some userId).

(** [socket.on("node_update", ...)], lines 604-629. The event is relayed
    first; the document is then fetched, and written only when the node is
    found. A [save()] that the schema rejects throws into the [catch], which
    logs and nothing else. *)
Definition node_update (st : Server.t) (sid : nat)
    (data : string * Updates.t) (now : N) : Server.t * list Effect :=
  match Server.sockets st !! sid with
  | None => (st, [])
  | Some socket =>
    match Js.truthy (Socket.currentMindmap socket) with
    | None => (st, [])
    | Some current =>
      let '(nodeId, updates) := data in
      let out :=
        to_emit st sid (room_of current)
                (node_updated nodeId updates (Socket.username socket)) in
      match Server.db st !! current with
      | None => (st, out)
      | Some mindmap =>
        match Js.findIndex (fun n => Node.id n =? nodeId)
                           (MindMap.nodes mindmap) with
        | None => (st, out)
        | Some nodeIndex =>
          let mindmap' :=
            assign_node mindmap nodeIndex updates now
                        (Socket.userId socket) in
          if MindMap.valid mindmap'
          then (Server.with_db (insert current mindmap') st,
                (out ++ [Saved current mindmap'])%list)
          else (st, out)
        end
      end
    end
  end.

(** [socket.on("cursor_move", ...)], lines 631-640. *)
Definition cursor_move (st : Server.t) (sid : nat) (data : Z * Z)
    : Server.t * list Effect :=
  match Server.sockets st !! sid with
  | None => (st, [])
  | Some socket =>
    match Js.truthy (Socket.currentMindmap socket) with
    | None => (st, [])
    | Some current =>
      (st, to_emit st sid (room_of current)
                   (cursor_moved (Socket.userId socket)
                                 (Socket.username socket) data.1 data.2))
    end
  end.

(** [socket.on("disconnect", ...)], lines 642-663. Socket.IO has taken the
    socket out of its rooms when the handler runs; the connection is gone
    when it returns. The argument of [mindmapUsers.delete] is a new object
    literal. *)
Definition disconnect (st : Server.t) (sid : nat)
    : Server.t * list Effect :=
  match Server.sockets st !! sid with
  | None => (st, [])
  | Some socket =>
    let st0 := socket_leave_all sid st in
    let '(st2, out) :=
      match Js.truthy (Socket.currentMindmap socket) with
      | None => (st0, [])
      | Some current =>
        match Server.activeUsers st0 !! current with
        | None => (st0, [])
        | Some mindmapUsers =>
          let '(o, st1) := Server.alloc (Socket.presence socket) st0 in
          let mindmapUsers' := Js.set_delete o mindmapUsers in
          if (length mindmapUsers' =? 0)%nat
          then (Server.with_activeUsers (delete current) st1, [])
          else (Server.with_activeUsers (insert current mindmapUsers') st1,
                to_emit st1 sid (room_of current)
                        (user_left (Socket.presence socket)))
        end
      end in
    (Server.with_sockets (delete sid) st2, out)
  end.

(** ** The REST routes *)

(** [req.user], the payload of the verified token. *)
Module ReqUser.
Record t := mk { id : string; username : string }.
End ReqUser.

Inductive Body :=
| json_error (message : string)
| json_message (message : string)
| json_mindmap (mindmap : MindMap.t)
| json_comment (comment : Comment.t)
| json_collaborators (collaborators : list Collaborator.t).

Module Response.
Record t := mk { status : nat; body : Body }.
End Response.

(** A node of a request body: the editor sends the six display fields and
    may send back the two audit fields. *)
Module NodeInput.
Record t := mk {
  id : string; x : Z; y : Z; text : string; level : Z; color : string;
  createdBy : option string; createdAt : option N }.

(** [node.createdAt || new Date()]: a zero time stamp is falsy. *)
Definition createdAt_or (n : t) (now : N) : N :=
  match createdAt n with
  | Some 0%N | None => now
  | Some d => d
  end.
End NodeInput.

Module PutBody.
Record t := mk {
  title : option string;
  description : option string;
  nodes : option (list NodeInput.t);
  links : option (list Link.t);
  isPublic : option bool;
  tags : option (list string) }.
End PutBody.

(** The [nodes.map(...)] of the PUT route, lines 397-402. *)
Definition processedNodes (nodes : list NodeInput.t) (username : string)
    (now : N) : list Node.t :=
  (fun node =>
     Node.mk (NodeInput.id node) (NodeInput.x node) (NodeInput.y node)
             (NodeInput.text node) (NodeInput.level node)
             (NodeInput.color node)
             (Js.or_else (NodeInput.createdBy node) username)
             (NodeInput.createdAt_or node now) now) <$> nodes.

(** The assignments of the PUT route, lines 394-410. The schema trims the
    title and the tags when they are set. *)
Definition put_assign (mindmap : MindMap.t) (body : PutBody.t)
    (user : ReqUser.t) (now : N) : MindMap.t :=
  MindMap.mk
    (match Js.truthy (PutBody.title body) with
     | Some title => Js.trim title
     | None => MindMap.title mindmap
     end)
    (default (MindMap.description mindmap) (PutBody.description body))
    (match PutBody.nodes body with
     | Some nodes => processedNodes nodes (ReqUser.username user) now
     | None => MindMap.nodes mindmap
     end)
    (default (MindMap.links mindmap) (PutBody.links body))
    (MindMap.comments mindmap)
    (MindMap.owner mindmap)
    (MindMap.collaborators mindmap)
    (default (MindMap.isPublic mindmap) (PutBody.isPublic body))
    (match PutBody.tags body with
     | Some tags => Js.trim <$> tags
     | None => MindMap.tags mindmap
     end)
    (MindMap.createdAt mindmap) now (Some (ReqUser.id user)).

(** [app.put("/api/mindmaps/:id", ...)], lines 371-423. *)
Definition put_mindmap (st : Server.t) (user : ReqUser.t) (id : string)
    (body : PutBody.t) (now : N) : Server.t * list Effect * Response.t :=
  match Server.db st !! id with
  | None => (st, [], Response.mk 404 (json_error "Mind map not found"))
  | Some mindmap =>
    if negb (canEdit (ReqUser.id user) mindmap)
    then (st, [], Response.mk 403 (json_error "Permission denied"))
    else
      let mindmap' := put_assign mindmap body user now in
      if MindMap.valid mindmap'
      then (Server.with_db (insert id mindmap') st,
            (Saved id mindmap'
             :: io_emit st (room_of id) (mindmap_updated mindmap'))%list,
            Response.mk 200 (json_mindmap mindmap'))
      else (st, [], Response.mk 500 (json_error "Server error"))
  end.

(** [app.delete("/api/mindmaps/:id", ...)], lines 425-444. *)
Definition delete_mindmap (st : Server.t) (user : ReqUser.t) (id : string)
    : Server.t * list Effect * Response.t :=
  match Server.db st !! id with
  | None => (st, [], Response.mk 404 (json_error "Mind map not found"))
  | Some mindmap =>
    if negb (MindMap.owner mindmap =? ReqUser.id user)
    then (st, [],
          Response.mk 403 (json_error "Only owner can delete mind map"))
    else (Server.with_db (delete id) st, [Removed id],
          Response.mk 200 (json_message "Mind map deleted successfully"))
  end.

(** The document after the comment is pushed, lines 481-489. *)
Definition push_comment (mindmap : MindMap.t) (nodeId : string)
    (comment : Comment.t) (now : N) : MindMap.t :=
  let nodeComments := default [] (MindMap.comments mindmap !! nodeId) in
  MindMap.mk (MindMap.title mindmap) (MindMap.description mindmap)
    (MindMap.nodes mindmap) (MindMap.links mindmap)
    (<[nodeId := (nodeComments ++ [comment])%list]> (MindMap.comments mindmap))
    (MindMap.owner mindmap) (MindMap.collaborators mindmap)
    (MindMap.isPublic mindmap) (MindMap.tags mindmap)
    (MindMap.createdAt mindmap) now (MindMap.lastModifiedBy mindmap).

(** [app.post("/api/mindmaps/:id/comments/:nodeId", ...)], lines 446-503.
    [text] is [None] when the body has no such key. [comments] is a
    Mongoose [Map]: [mindmap.comments.set(nodeId, ...)] throws for a key
    that [Mongoose.checkValidKey] refuses, and the [catch] answers 500. *)
Definition post_comment (st : Server.t) (user : ReqUser.t)
    (mindmapId nodeId : string) (text : option string) (now : N)
    : Server.t * list Effect * Response.t :=
  match Js.truthy text with
  | None => (st, [], Response.mk 400 (json_error "Comment text is required"))
  | Some text =>
    if Js.trim text =? ""
    then (st, [], Response.mk 400 (json_error "Comment text is required"))
    else
      match Server.db st !! mindmapId with
      | None => (st, [], Response.mk 404 (json_error "Mind map not found"))
      | Some mindmap =>
        if negb (hasAccess (ReqUser.id user) mindmap)
        then (st, [], Response.mk 403 (json_error "Access denied"))
        else if negb (Mongoose.checkValidKey nodeId)
        then (st, [], Response.mk 500 (json_error "Server error"))
        else
          let comment :=
            Comment.mk (pretty now) (Js.trim text) (ReqUser.username user)
                       (ReqUser.id user) now in
          let mindmap' := push_comment mindmap nodeId comment now in
          if MindMap.valid mindmap'
          then (Server.with_db (insert mindmapId mindmap') st,
                (Saved mindmapId mindmap'
                 :: io_emit st (room_of mindmapId)
                            (comment_added nodeId comment))%list,
                Response.mk 201 (json_comment comment))
          else (st, [], Response.mk 500 (json_error "Server error"))
      end
  end.

(** The document after [mindmap.collaborators.push(...)]. *)
Definition push_collaborator (mindmap : MindMap.t) (c : Collaborator.t)
    : MindMap.t :=
  MindMap.mk (MindMap.title mindmap) (MindMap.description mindmap)
    (MindMap.nodes mindmap) (MindMap.links mindmap)
    (MindMap.comments mindmap) (MindMap.owner mindmap)
    (MindMap.collaborators mindmap ++ [c])%list
    (MindMap.isPublic mindmap) (MindMap.tags mindmap)
    (MindMap.createdAt mindmap) (MindMap.updatedAt mindmap)
    (MindMap.lastModifiedBy mindmap).

(** [app.post("/api/mindmaps/:id/collaborators", ...)], lines 505-553.
    [permission] is [None] when the body has no such key; the default is
    read. *)
Definition add_collaborator (st : Server.t) (user : ReqUser.t)
    (mindmapId username : string) (permission : option Permission)
    : Server.t * list Effect * Response.t :=
  match Server.db st !! mindmapId with
  | None => (st, [], Response.mk 404 (json_error "Mind map not found"))
  | Some mindmap =>
    if negb (MindMap.owner mindmap =? ReqUser.id user)
    then (st, [],
          Response.mk 403 (json_error "Only owner can add collaborators"))
    else
      match Server.users st !! username with
      | None => (st, [], Response.mk 404 (json_error "User not found"))
      | Some userId =>
        match find (fun c => Collaborator.user c =? userId)
                   (MindMap.collaborators mindmap) with
        | Some existingCollaborator =>
          (st, [],
           Response.mk 400 (json_error "User is already a collaborator"))
        | None =>
          let mindmap' :=
            push_collaborator mindmap
              (Collaborator.mk userId (default read permission)) in
          if MindMap.valid mindmap'
          then (Server.with_db (insert mindmapId mindmap') st,
                [Saved mindmapId mindmap'],
                Response.mk 200
                  (json_collaborators (MindMap.collaborators mindmap')))
          else (st, [], Response.mk 500 (json_error "Server error"))
        end
      end
  end.

(** ** The editor (the ThinkNet component) *)

Module Editor.

(** A node as the editor keeps it. *)
Record node := mk_node {
  id : string; x : Z; y : Z; text : string; level : Z; color : string }.

(** An end of a link: the id of a node, or the node object that the force
    simulation has put in its place. *)
Inductive link_end :=
| by_id (i : string)
| by_node (n : node).

Record link := mk_link { source : link_end; target : link_end }.

(** [end !== id], the strict comparison of a link end with a string: an
    object is never equal to a string. *)
Definition differs (e : link_end) (i : string) : bool :=
  match e with
  | by_id j => negb (j =? i)
  | by_node _ => true
  end.

(** The state that [deleteNode] reads and sets. *)
Record t := mk {
  nodes : list node;
  links : list link;
  selectedNode : option node }.

(** [deleteNode], lines 584-594. *)
Definition deleteNode (c : t) : t :=
  match selectedNode c with
  | None => c
  | Some selected =>
    if id selected =? "root" then c
    else
      mk (filter (fun n => id n ≠ id selected) (nodes c))
         (filter (fun l => differs (source l) (id selected) = true
                           ∧ differs (target l) (id selected) = true)
                 (links c))
         None
  end.

(** The two refs of the auto-save and the timer they control. [timer] is
    the time at which the pending timeout is due, [None] when none is
    pending; the component arms no other timeout, and clears the one it
    holds before it arms the next. [calls] records when the callback
    called [saveMindMap]. *)
Record autosave := mk_autosave {
  hasUnsavedChanges : bool;
  timer : option N;
  calls : list N }.

(** The delay given to [setTimeout], in milliseconds. *)
Definition quiet : N := 2000.

(** [scheduleAutoSave], lines 413-425: raise the flag, clear the pending
    timeout, arm a new one. *)
Definition scheduleAutoSave (now : N) (a : autosave) : autosave :=
  mk_autosave true (Some (now + quiet)%N) (calls a).

(** The event loop at time [now]: a timeout that is due runs its callback,
    which calls [saveMindMap] when the flag is up and the component has a
    [mindMapId]. The call only sends the request; the flag is lowered
    later, when the request resolves ([saved] below). *)
Definition tick (mindMapId : option string) (now : N) (a : autosave)
    : autosave :=
  match timer a with
  | None => a
  | Some due =>
    if (due <=? now)%N
    then mk_autosave (hasUnsavedChanges a) None
           (if hasUnsavedChanges a && bool_decide (is_Some (Js.truthy mindMapId))
            then (calls a ++ [now])%list else calls a)
    else a
  end.

(** A burst: after a first call at [now], one further call of
    [scheduleAutoSave] after each of the [gaps]. *)
Fixpoint burst (mindMapId : option string) (now : N) (gaps : list N)
    (a : autosave) : N * autosave :=
  match gaps with
  | [] => (now, a)
  | g :: gaps' =>
    let now' := (now + g)%N in
    burst mindMapId now' gaps' (scheduleAutoSave now' (tick mindMapId now' a))
  end.

(** The request of a [saveMindMap], called by the timeout or by the Save
    button, resolves: line 469 lowers the flag. (A request that fails
    leaves the two refs as they are.) *)
Definition saved (a : autosave) : autosave :=
  mk_autosave false (timer a) (calls a).

(** What happens to the two refs while the editor is open: a call of
    [scheduleAutoSave], or the request of an earlier [saveMindMap]
    resolving. *)
Inductive happening := mutation | resolved.

(** A run of the editor after [now]: each happening comes its gap after
    the one before; the event loop runs a timeout that is due first. *)
Fixpoint play (mindMapId : option string) (now : N)
    (run : list (N * happening)) (a : autosave) : N * autosave :=
  match run with
  | [] => (now, a)
  | (g, h) :: run' =>
    let now' := (now + g)%N in
    let a' := tick mindMapId now' a in
    play mindMapId now' run'
         (match h with
          | mutation => scheduleAutoSave now' a'
          | resolved => saved a'
          end)
  end.

(** Every happening of the run comes less than the quiet period after the
    last call of [scheduleAutoSave] before it; [since] is the time passed
    since that call. *)
Fixpoint within_quiet (since : N) (run : list (N * happening)) : bool :=
  match run with
  | [] => true
  | (g, h) :: run' =>
    (since + g <? quiet)%N
    && within_quiet (match h with
                     | mutation => 0%N
                     | resolved => (since + g)%N
                     end) run'
  end.


End Editor.

(** ** Runs of events *)

(** The [node_update] events of one socket, handled in order; each comes
    with the time at which it is handled. *)
Fixpoint node_updates (st : Server.t) (sid : nat)
    (events : list (string * Updates.t * N)) : Server.t * list Effect :=
  match events with
  | [] => (st, [])
  | (data, now) :: events' =>
    let '(st1, out1) := node_update st sid data now in
    let '(st2, out2) := node_updates st1 sid events' in
    (st2, (out1 ++ out2)%list)
  end.

(** The event that relays a [node_update]. *)
Definition relayed (username : string) (event : string * Updates.t * N)
    : Event :=
  node_updated event.1.1 event.1.2 username.

(** What one accepted [node_update] makes of the document: [None] when the
    node is not found or the schema rejects the result. *)
Definition updated (mindmap : MindMap.t) (userId : string)
    (event : string * Updates.t * N) : option MindMap.t :=
  let '(nodeId, updates, now) := event in
  match Js.findIndex (fun n => Node.id n =? nodeId)
                     (MindMap.nodes mindmap) with
  | None => None
  | Some nodeIndex =>
    let mindmap' := assign_node mindmap nodeIndex updates now userId in
    if MindMap.valid mindmap' then Some mindmap' else None
  end.


(** Everything the server is asked to do. *)
Inductive Request :=
| Connect (sid : nat) (userId username : string)
| JoinMindmap (sid : nat) (mindmapId : string)
| NodeUpdate (sid : nat) (data : string * Updates.t) (now : N)
| CursorMove (sid : nat) (data : Z * Z)
| Disconnect (sid : nat)
| PutMindmap (user : ReqUser.t) (id : string) (body : PutBody.t) (now : N)
| DeleteMindmap (user : ReqUser.t) (id : string)
| PostComment (user : ReqUser.t) (mindmapId nodeId : string)
    (text : option string) (now : N)
| AddCollaborator (user : ReqUser.t) (mindmapId username : string)
    (permission : option Permission).

Definition handle (st : Server.t) (r : Request) : Server.t :=
  match r with
  | Connect sid userId username => (connect st sid userId username).1
  | JoinMindmap sid mindmapId => (join_mindmap st sid mindmapId).1
  | NodeUpdate sid data now => (node_update st sid data now).1
  | CursorMove sid data => (cursor_move st sid data).1
  | Disconnect sid => (disconnect st sid).1
  | PutMindmap user id body now => (put_mindmap st user id body now).1.1
  | DeleteMindmap user id => (delete_mindmap st user id).1.1
  | PostComment user mindmapId nodeId text now =>
      (post_comment st user mindmapId nodeId text now).1.1
  | AddCollaborator user mindmapId username permission =>
      (add_collaborator st user mindmapId username permission).1.1
  end.

(** The server after a sequence of requests. *)
Definition run (st : Server.t) (requests : list Request) : Server.t :=
  foldl handle st requests.

(** ** The presence sets and the allocator *)

(** Every object of a presence set was allocated by a handler, and a set is
    created by [join_mindmap] only to receive a member. *)
Definition heap_wf (st : Server.t) : Prop :=
  ∀ k s, Server.activeUsers st !! k = Some s →
         s ≠ [] ∧ Forall (fun o => Js.addr o < Server.nextAddr st)%nat s.

(** Every stored document has passed the validators, and has at most one
    collaborators entry per user. *)
Definition db_wf (st : Server.t) : Prop :=
  ∀ k m, Server.db st !! k = Some m →
         MindMap.valid m = true
         ∧ NoDup (Collaborator.user <$> MindMap.collaborators m).

(** ** The access levels in the words of the specification *)

(** Effective permission: admin for the owner; else the permission of the
    collaborators entry of the user; else read on a public document; else
    denied ([None]). *)
Definition effective_permission_spec (userId : string) (mindmap : MindMap.t)
    : option Permission :=
  if MindMap.owner mindmap =? userId then Some admin
  else
    match find (fun c => Collaborator.user c =? userId)
               (MindMap.collaborators mindmap) with
    | Some c => Some (Collaborator.permission c)
    | None => if MindMap.isPublic mindmap then Some read else None
    end.

Definition at_least_write_spec (p : option Permission) : bool :=
  match p with
  | Some write | Some admin => true
  | Some read | None => false
  end.

(** The number of nodes whose id is "root". *)
Definition roots (ids : list string) : nat :=
  length (filter (fun i => i = "root") ids).

(** ** A small scenario *)

Module Scenario.

Definition root : Node.t :=
  Node.mk "root" 400 300 "Central Idea" 0 "#6366f1" "alice" 1000 1000.

(** A public document of alice with no collaborators. *)
Definition doc : MindMap.t :=
  MindMap.mk "Plan" "" [root] [] ∅ "u-alice" [] true [] 1000 1000
             (Some "u-alice").

Definition alice : Socket.t := Socket.mk "u-alice" "alice" None.
Definition bob : Socket.t := Socket.mk "u-bob" "bob" None.
Definition carol : Socket.t := Socket.mk "u-carol" "carol" None.

Definition registered : gmap string string :=
  {[ "alice" := "u-alice"; "bob" := "u-bob"; "carol" := "u-carol" ]}.

(** The server as it boots: one stored document, nobody connected. *)
Definition boot : Server.t :=
  Server.mk {[ "d1" := doc ]} registered ∅ ∅ ∅ 0.

(** Three authenticated connections, none in a room yet. *)
Definition start : Server.t :=
  run boot [Connect 1 "u-alice" "alice"; Connect 2 "u-bob" "bob";
            Connect 3 "u-carol" "carol"].

Definition rename (s : string) : Updates.t :=
  Updates.mk None None None (Some s) None None None None None.

(** alice, then bob, have joined the document. *)
Definition alice_in : Server.t := (join_mindmap start 1 "d1").1.
Definition both_in : Server.t := (join_mindmap alice_in 2 "d1").1.

(** alice and carol have joined it. *)
Definition with_carol : Server.t := (join_mindmap alice_in 3 "d1").1.

Definition as_alice : ReqUser.t := ReqUser.mk "u-alice" "alice".
Definition as_carol : ReqUser.t := ReqUser.mk "u-carol" "carol".



(** A document with two collaborators. *)
Definition shared : MindMap.t :=
  MindMap.mk "Shared" "" [root] [] ∅ "u-alice"
    [Collaborator.mk "u-bob" write; Collaborator.mk "u-carol" read]
    false [] 1000 1000 (Some "u-alice").

Definition shared_server : Server.t :=
  Server.mk {[ "d2" := shared ]} registered ∅ ∅ ∅ 0.

(** A request body that replaces the nodes by one node that is not a
    root. *)
Definition idea : NodeInput.t :=
  NodeInput.mk "node-1" 420 310 "New Idea" 1 "#ec4899" None None.

Definition only_idea : PutBody.t :=
  PutBody.mk None None (Some [idea]) None None None.

(** The editor with the root and one child, the child selected. *)
Definition child : Editor.node :=
  Editor.mk_node "node-1" 420 310 "New Idea" 1 "#ec4899".

Definition editing : Editor.t :=
  Editor.mk
    [Editor.mk_node "root" 400 300 "Central Idea" 0 "#6366f1"; child]
    [Editor.mk_link (Editor.by_id "root") (Editor.by_id "node-1")]
    (Some child).

Definition idle : Editor.autosave := Editor.mk_autosave false None [].

End Scenario.

(** * The rest of the server and of the editor *)

(** ** More routes *)

(** [app.get("/api/mindmaps/:id", ...)], lines 307-332. The route compares
    the ids of the populated owner and collaborators, which are the ids
    [hasAccess] compares. *)
Definition get_mindmap (st : Server.t) (user : ReqUser.t) (id : string)
    : Response.t :=
  match Server.db st !! id with
  | None => Response.mk 404 (json_error "Mind map not found")
  | Some mindmap =>
    if negb (hasAccess (ReqUser.id user) mindmap)
    then Response.mk 403 (json_error "Access denied")
    else Response.mk 200 (json_mindmap mindmap)
  end.

(** The document that [new MindMap({...})] builds, lines 342-359. Every
    node is stamped with the name of the requester, whatever the body says;
    the schema supplies the two dates. *)
Definition new_mindmap (user : ReqUser.t) (title : string)
    (nodes : list NodeInput.t) (body : PutBody.t) (now : N) : MindMap.t :=
  MindMap.mk (Js.trim title)
    (Js.or_else (PutBody.description body) "")
    ((fun node =>
        Node.mk (NodeInput.id node) (NodeInput.x node) (NodeInput.y node)
                (NodeInput.text node) (NodeInput.level node)
                (NodeInput.color node) (ReqUser.username user) now now)
       <$> nodes)
    (default [] (PutBody.links body))
    ∅
    (ReqUser.id user)
    []
    (default false (PutBody.isPublic body))
    (Js.trim <$> default [] (PutBody.tags body))
    now now (Some (ReqUser.id user)).

(** [app.post("/api/mindmaps", ...)], lines 334-369. [newId] is the [_id]
    that Mongoose gives the new document; the collection refuses an [_id]
    that is taken, and the [save()] then throws like a failed validation. *)
Definition post_mindmap (st : Server.t) (user : ReqUser.t) (body : PutBody.t)
    (newId : string) (now : N) : Server.t * list Effect * Response.t :=
  match Js.truthy (PutBody.title body), PutBody.nodes body with
  | Some title, Some nodes =>
    let mindmap := new_mindmap user title nodes body now in
    if MindMap.valid mindmap && bool_decide (Server.db st !! newId = None)
    then (Server.with_db (insert newId mindmap) st,
          [Saved newId mindmap],
          Response.mk 201 (json_mindmap mindmap))
    else (st, [], Response.mk 500 (json_error "Server error"))
  | _, _ =>
    (st, [], Response.mk 400 (json_error "Title and nodes are required"))
  end.

(** ** The serverless API *)

(** The nodes of a body as the serverless PUT stores them
    ([src/unnamed/part_002], line 365; [src/unnamed/part_001], line 324):
    the array is assigned as it comes. The schema supplies a missing
    [createdAt] and the [updatedAt]; a missing [createdBy] stays missing,
    and is carried here as the empty string, which the [required] validator
    rejects all the same. *)
Definition serverless_nodes (nodes : list NodeInput.t) (now : N)
    : list Node.t :=
  (fun node =>
     Node.mk (NodeInput.id node) (NodeInput.x node) (NodeInput.y node)
             (NodeInput.text node) (NodeInput.level node)
             (NodeInput.color node)
             (default "" (NodeInput.createdBy node))
             (default now (NodeInput.createdAt node)) now) <$> nodes.

(** The assignments of the serverless PUT: a key is assigned when it is
    not [undefined]. *)
Definition serverless_assign (mindmap : MindMap.t) (body : PutBody.t)
    (user : ReqUser.t) (now : N) : MindMap.t :=
  MindMap.mk
    (match PutBody.title body with
     | Some title => Js.trim title
     | None => MindMap.title mindmap
     end)
    (default (MindMap.description mindmap) (PutBody.description body))
    (match PutBody.nodes body with
     | Some nodes => serverless_nodes nodes now
     | None => MindMap.nodes mindmap
     end)
    (default (MindMap.links mindmap) (PutBody.links body))
    (MindMap.comments mindmap)
    (MindMap.owner mindmap)
    (MindMap.collaborators mindmap)
    (default (MindMap.isPublic mindmap) (PutBody.isPublic body))
    (match PutBody.tags body with
     | Some tags => Js.trim <$> tags
     | None => MindMap.tags mindmap
     end)
    (MindMap.createdAt mindmap) now (Some (ReqUser.id user)).

(** [app.put("/mindmaps/:id", ...)] of the serverless API
    ([src/unnamed/part_002], lines 339-384; the handler of
    [src/unnamed/part_001], lines 300-340, is the same). Its write check is
    [canEdit]; there are no sockets to emit to. *)
Definition serverless_put (st : Server.t) (user : ReqUser.t) (id : string)
    (body : PutBody.t) (now : N) : Server.t * list Effect * Response.t :=
  match Server.db st !! id with
  | None => (st, [], Response.mk 404 (json_error "Mind map not found"))
  | Some mindmap =>
    if negb (canEdit (ReqUser.id user) mindmap)
    then (st, [], Response.mk 403 (json_error "Write access denied"))
    else
      let mindmap' := serverless_assign mindmap body user now in
      if MindMap.valid mindmap'
      then (Server.with_db (insert id mindmap') st, [Saved id mindmap'],
            Response.mk 200 (json_mindmap mindmap'))
      else (st, [], Response.mk 500 (json_error "Server error"))
  end.

(** ** More of the editor *)

Module Client.

(** [{ ...node, ...updates }] as the six fields of the editor show it. *)
Definition spread (node : Editor.node) (updates : Updates.t) : Editor.node :=
  Editor.mk_node (default (Editor.id node) (Updates.id updates))
                 (default (Editor.x node) (Updates.x updates))
                 (default (Editor.y node) (Updates.y updates))
                 (default (Editor.text node) (Updates.text updates))
                 (default (Editor.level node) (Updates.level updates))
                 (default (Editor.color node) (Updates.color updates)).

(** [handleNodeUpdated], lines 363-371; [me] is [user.username]. *)
Definition handleNodeUpdated (me : string) (nodeId : string)
    (updates : Updates.t) (updatedBy : string) (prev : list Editor.node)
    : list Editor.node :=
  if negb (updatedBy =? me)
  then (fun node =>
          if Editor.id node =? nodeId then spread node updates else node)
         <$> prev
  else prev.

(** [handleCommentAdded], lines 373-378. *)
Definition handleCommentAdded (nodeId : string) (comment : Comment.t)
    (prev : gmap string (list Comment.t)) : gmap string (list Comment.t) :=
  <[nodeId := (default [] (prev !! nodeId) ++ [comment])%list]> prev.

(** [handleActiveUsers], [handleUserJoined] and [handleUserLeft], lines
    380-390. *)
Definition handleActiveUsers (users prev : list Presence.t)
    : list Presence.t := users.

Definition handleUserJoined (user : Presence.t) (prev : list Presence.t)
    : list Presence.t :=
  (filter (fun u => Presence.id u ≠ Presence.id user) prev ++ [user])%list.

Definition handleUserLeft (user : Presence.t) (prev : list Presence.t)
    : list Presence.t :=
  filter (fun u => Presence.id u ≠ Presence.id user) prev.

(** How the editor applies an event of the server to its nodes, its
    comments and its list of users on line. *)
Record view := mk_view {
  nodes : list Editor.node;
  comments : gmap string (list Comment.t);
  activeUsers : list Presence.t }.

Definition on_event (me : string) (e : Event) (v : view) : view :=
  match e with
  | node_updated nodeId updates updatedBy =>
      mk_view (handleNodeUpdated me nodeId updates updatedBy (nodes v))
              (comments v) (activeUsers v)
  | comment_added nodeId comment =>
      mk_view (nodes v) (handleCommentAdded nodeId comment (comments v))
              (activeUsers v)
  | active_users users =>
      mk_view (nodes v) (comments v) (handleActiveUsers users (activeUsers v))
  | user_joined u =>
      mk_view (nodes v) (comments v) (handleUserJoined u (activeUsers v))
  | user_left u =>
      mk_view (nodes v) (comments v) (handleUserLeft u (activeUsers v))
  | error _ | cursor_moved _ _ _ _ | mindmap_updated _ => v
  end.

(** [saveEdit], lines 596-609: the new node list, and the arguments of the
    call of [socketService.updateNode]. *)
Definition saveEdit (editText : string) (c : Editor.t)
    : Editor.t * option (string * Updates.t) :=
  match Editor.selectedNode c with
  | None => (c, None)
  | Some selected =>
    (Editor.mk
       ((fun n =>
           if Editor.id n =? Editor.id selected
           then Editor.mk_node (Editor.id n) (Editor.x n) (Editor.y n)
                               editText (Editor.level n) (Editor.color n)
           else n) <$> Editor.nodes c)
       (Editor.links c) (Editor.selectedNode c),
     Some (Editor.id selected,
           Updates.mk None None None (Some editText) None None None None
                      None))
  end.

(** [cleanNodes] and [cleanLinks] of [saveMindMap], lines 436-449. *)
Definition cleanNodes (nodes : list Editor.node) : list NodeInput.t :=
  (fun node =>
     NodeInput.mk (Editor.id node) (Editor.x node) (Editor.y node)
                  (Editor.text node) (Editor.level node) (Editor.color node)
                  None None) <$> nodes.

Definition end_id (e : Editor.link_end) : string :=
  match e with
  | Editor.by_id i => i
  | Editor.by_node n => Editor.id n
  end.

Definition cleanLinks (links : list Editor.link) : list Link.t :=
  (fun link => Link.mk (end_id (Editor.source link))
                       (end_id (Editor.target link))) <$> links.

(** What [saveMindMap] reads besides the nodes and the links: the title
    and the description of the loaded mind map, if one is loaded, and the
    privacy switch. *)
Record meta := mk_meta {
  mindMap : option (string * string);
  isPrivate : bool }.

(** [mindMapData] of [saveMindMap], lines 451-458 (the [comments] key,
    which no route reads, is left out). *)
Definition mindMapData (m : meta) (c : Editor.t) : PutBody.t :=
  PutBody.mk
    (Some (Js.or_else (fst <$> mindMap m) "Untitled Mind Map"))
    (Some (Js.or_else (snd <$> mindMap m) ""))
    (Some (cleanNodes (Editor.nodes c)))
    (Some (cleanLinks (Editor.links c)))
    (Some (negb (isPrivate m)))
    None.

(** The request of [saveMindMap] for a mind map that has an id, lines
    427-461: none when there is no node. *)
Definition saveMindMap (m : meta) (c : Editor.t) : option PutBody.t :=
  if (length (Editor.nodes c) =? 0)%nat then None
  else Some (mindMapData m c).

(** The node that the editor shows for an empty mind map. *)
Definition central : Editor.node :=
  Editor.mk_node "root" 400 300 "Central Idea" 0 "#6366f1".

(** What [loadMindMap] makes of a fetched mind map, lines 285-326: the
    nodes, the links and the privacy switch. *)
Definition loadNodes (mindMapData : MindMap.t) : list Editor.node :=
  if (length (MindMap.nodes mindMapData) =? 0)%nat then [central]
  else (fun node =>
          Editor.mk_node (Node.id node) (Node.x node) (Node.y node)
                         (Node.text node) (Node.level node) (Node.color node))
         <$> MindMap.nodes mindMapData.

Definition loadLinks (mindMapData : MindMap.t) : list Editor.link :=
  (fun link => Editor.mk_link (Editor.by_id (Link.source link))
                              (Editor.by_id (Link.target link)))
    <$> MindMap.links mindMapData.

Definition loadPrivate (mindMapData : MindMap.t) : bool :=
  negb (MindMap.isPublic mindMapData).

End Client.

(** A burst of calls of [scheduleAutoSave] observed to its end: the calls
    of the burst, then the event loop once the last timeout is due. *)
Definition settle (mindMapId : option string) (now : N) (gaps : list N)
    (a : Editor.autosave) : Editor.autosave :=
  let '(last, a') :=
    Editor.burst mindMapId now gaps (Editor.scheduleAutoSave now a) in
  Editor.tick mindMapId (last + Editor.quiet) a'.

(** ** More invariants *)

(** Rooms hold connected sockets only; a socket that has a current mind map
    is in its room and has an entry in its presence set. *)
Definition rooms_wf (st : Server.t) : Prop :=
  (∀ room t, t ∈ members st room → is_Some (Server.sockets st !! t))
  ∧ (∀ sid socket d,
       Server.sockets st !! sid = Some socket →
       Socket.currentMindmap socket = Some d →
       sid ∈ members st (room_of d)
       ∧ ∃ s, Server.activeUsers st !! d = Some s
              ∧ Socket.presence socket ∈ (Js.val <$> s)).

(** Two updates that set no common field. *)
Definition disjoint (u1 u2 : Updates.t) : bool :=
  let both {A} (a b : option A) : bool := bool_decide (is_Some a) && bool_decide (is_Some b) in
  negb (both (Updates.id u1) (Updates.id u2))
  && negb (both (Updates.x u1) (Updates.x u2))
  && negb (both (Updates.y u1) (Updates.y u2))
  && negb (both (Updates.text u1) (Updates.text u2))
  && negb (both (Updates.level u1) (Updates.level u2))
  && negb (both (Updates.color u1) (Updates.color u2))
  && negb (both (Updates.createdBy u1) (Updates.createdBy u2))
  && negb (both (Updates.createdAt u1) (Updates.createdAt u2))
  && negb (both (Updates.updatedAt u1) (Updates.updatedAt u2)).

(** What a stored mind map never loses: its owner and its date of
    creation stay, and its collaborators and the comments of each node are
    only ever added to, at the end. *)
Definition extends (m m' : MindMap.t) : Prop :=
  MindMap.owner m' = MindMap.owner m
  ∧ MindMap.createdAt m' = MindMap.createdAt m
  ∧ MindMap.collaborators m `prefix_of` MindMap.collaborators m'
  ∧ ∀ nodeId,
      default [] (MindMap.comments m !! nodeId)
      `prefix_of` default [] (MindMap.comments m' !! nodeId).

(** ** The dashboard and the comments of the editor *)

(** The request of [saveTitle] of the dashboard
    ([src/src/components/MindMapDashboard.jsx], lines 95-117): none for a
    blank title, else a body with the trimmed title and nothing else. *)
Definition saveTitle (editingTitle : string) : option PutBody.t :=
  if Js.trim editingTitle =? "" then None
  else Some (PutBody.mk (Some (Js.trim editingTitle)) None None None None
                        None).



(** [addNode] of the editor, lines 559-582: the new state, and the
    arguments of the call of [socketService.updateNode]. [now] is
    [Date.now()]; the position and the colour, which the source draws at
    random, are given. *)
Definition addNode (now : N) (x y : Z) (color : string) (c : Editor.t)
    : Editor.t * option (string * Updates.t) :=
  match Editor.selectedNode c with
  | None => (c, None)
  | Some selected =>
    let newNode :=
      Editor.mk_node ("node-" ++ pretty now) x y "New Idea"
                     (Editor.level selected + 1) color in
    let newLink :=
      Editor.mk_link (Editor.by_id (Editor.id selected))
                     (Editor.by_id (Editor.id newNode)) in
    (Editor.mk (Editor.nodes c ++ [newNode])%list
               (Editor.links c ++ [newLink])%list
               (Some newNode),
     Some (Editor.id newNode,
           Updates.mk (Some (Editor.id newNode)) (Some (Editor.x newNode))
                      (Some (Editor.y newNode)) (Some (Editor.text newNode))
                      (Some (Editor.level newNode))
                      (Some (Editor.color newNode)) None None None))
  end.

(** The events that reach an editor, applied in the order of arrival. *)
Definition receive (me : string) (events : list Event) (v : Client.view)
    : Client.view :=
  foldl (fun v e => Client.on_event me e v) v events.


(** ** More of the scenario *)

Module Cases.
Import Scenario.

(** alice and bob as their sockets are once they have joined "d1". *)
Definition alice_joined : Socket.t := Socket.mk "u-alice" "alice" (Some "d1").
Definition bob_joined : Socket.t := Socket.mk "u-bob" "bob" (Some "d1").

Definition recolour (s : string) : Updates.t :=
  Updates.mk None None None None None (Some s) None None None.

(** The editor of alice: what it knows of the loaded mind map. *)
Definition plan : Client.meta := Client.mk_meta (Some ("Plan", "")) false.

(** The editor of bob, showing the nodes that alice's shows. *)
Definition bob_view : Client.view :=
  Client.mk_view (Editor.nodes editing) ∅ [].


(** The child with the two ends of its link resolved by the simulation. *)
Definition resolved : Editor.t :=
  Editor.mk
    [Editor.mk_node "root" 400 300 "Central Idea" 0 "#6366f1"; child]
    [Editor.mk_link
       (Editor.by_node (Editor.mk_node "root" 400 300 "Central Idea" 0
                                       "#6366f1"))
       (Editor.by_node child)]
    (Some child).

(** A comment of carol on the root. *)
Definition nice : Comment.t :=
  Comment.mk "7000" "Nice" "carol" "u-carol" 7000.


(** The same, but for the request, which resolves after the last call. *)
Definition typing_then_saved : list (N * Editor.happening) :=
  [(100, Editor.mutation); (1800, Editor.mutation); (1999, Editor.mutation);
   (300, Editor.resolved)]%N.

(** dave, whom the shared document does not name, has connected. *)
Definition dave : Socket.t := Socket.mk "u-dave" "dave" None.

Definition with_dave : Server.t :=
  (connect shared_server 4 "u-dave" "dave").1.

(** The body of a request for a new mind map with one node. *)
Definition fresh : PutBody.t :=
  PutBody.mk (Some " Ideas ") None (Some [idea]) None None None.

(** The three connections, then alice and bob join, bob leaves. *)
Definition session : list Request :=
  [Connect 1 "u-alice" "alice"; Connect 2 "u-bob" "bob";
   Connect 3 "u-carol" "carol"; JoinMindmap 1 "d1"; JoinMindmap 2 "d1";
   Disconnect 2].

End Cases.

(** * Properties *)

(** Unfold the setters of the server state. *)
Ltac server_simpl :=
  unfold Server.with_db, Server.with_sockets, Server.with_rooms,
    Server.with_activeUsers, Server.alloc, socket_join, socket_leave_all in *;
  simpl in *.

(** ** The definitions on small inputs *)

Example trim_both_ends : Js.trim "  New  Idea " = "New  Idea".
Proof. reflexivity. Qed.

Example trim_blank : Js.trim (String "009"%char (String "160"%char " ")) = "".
Proof. reflexivity. Qed.

Example truthy_empty : Js.truthy (Some "") = None.
Proof. reflexivity. Qed.

Example findIndex_missing :
  Js.findIndex (fun n => Node.id n =? "node-1") [Scenario.root] = None.
Proof. reflexivity. Qed.

Example set_delete_by_identity :
  Js.set_delete (Js.mkObj 1 "a") [Js.mkObj 0 "a"] = [Js.mkObj 0 "a"]
  ∧ Js.set_delete (Js.mkObj 0 "b") [Js.mkObj 0 "a"] = [].
Proof. split; reflexivity. Qed.

Example reader_of_shared :
  hasAccess "u-carol" Scenario.shared = true
  ∧ canEdit "u-carol" Scenario.shared = false
  ∧ canEdit "u-bob" Scenario.shared = true
  ∧ hasAccess "u-dave" Scenario.shared = false.
Proof. repeat split; reflexivity. Qed.

Example deleteNode_child :
  Editor.id <$> Editor.nodes (Editor.deleteNode Scenario.editing) = ["root"]
  ∧ Editor.links (Editor.deleteNode Scenario.editing) = [].
Proof. split; reflexivity. Qed.

(** ** Deliveries *)

Section Deliveries.

Implicit Types (st : Server.t) (t sid : nat) (e : Event) (out : list Effect).

Lemma delivered_app t out1 out2 :
  delivered t (out1 ++ out2) = (delivered t out1 ++ delivered t out2)%list.
Proof.
  induction out1 as [|[t' e'| |] out1 IH]; simpl; auto.
  destruct (t' =? t)%nat; simpl; congruence.
Qed.

Lemma delivered_fmap_notin t e (l : list nat) :
  t ∉ l → delivered t ((fun t' => Deliver t' e) <$> l) = [].
Proof.
  induction l as [|a l IH]; intros Hnotin; simpl; [done|].
  apply not_elem_of_cons in Hnotin as [Hne Hnotin].
  destruct (Nat.eqb_spec a t); [congruence|]. by apply IH.
Qed.

Lemma delivered_fmap_in t e (l : list nat) :
  NoDup l → t ∈ l → delivered t ((fun t' => Deliver t' e) <$> l) = [e].
Proof.
  induction 1 as [|a l Hnotin Hnodup IH]; intros Hin; [by inversion Hin|].
  simpl. destruct (Nat.eqb_spec a t) as [->|Hne].
  - by rewrite delivered_fmap_notin.
  - apply elem_of_cons in Hin as [?|Hin]; [congruence|]. by apply IH.
Qed.

(** [socket.to(room).emit] reaches every other member once. *)
Lemma delivered_to_emit_other st sid room e t :
  t ∈ members st room → t ≠ sid →
  delivered t (to_emit st sid room e) = [e].
Proof.
  intros Hin Hne. apply delivered_fmap_in; [apply NoDup_elements|].
  apply elem_of_elements, elem_of_difference. split; [done|].
  by rewrite elem_of_singleton.
Qed.

(** ... and never the sender. *)
Lemma delivered_to_emit_self st sid room e :
  delivered sid (to_emit st sid room e) = [].
Proof.
  apply delivered_fmap_notin. rewrite elem_of_elements, elem_of_difference.
  intros [_ Hne]. apply Hne. by apply elem_of_singleton.
Qed.

(** ... and nobody outside the room. *)
Lemma delivered_to_emit_outside st sid room e t :
  t ∉ members st room → delivered t (to_emit st sid room e) = [].
Proof.
  intros Hout. apply delivered_fmap_notin.
  rewrite elem_of_elements, elem_of_difference. by intros [? _].
Qed.



Lemma saves_to_emit st sid room e : saves (to_emit st sid room e) = [].
Proof. unfold to_emit. by induction (elements _). Qed.

Lemma saves_io_emit st room e : saves (io_emit st room e) = [].
Proof. unfold io_emit. by induction (elements _). Qed.

End Deliveries.

(** ** The relay of [node_update] *)

(** What [node_update] emits is the relay, followed by at most one write. *)
Lemma node_update_out st sid socket current nodeId updates now :
  Server.sockets st !! sid = Some socket →
  Js.truthy (Socket.currentMindmap socket) = Some current →
  ∃ tail,
    (node_update st sid (nodeId, updates) now).2
    = (to_emit st sid (room_of current)
               (node_updated nodeId updates (Socket.username socket))
       ++ tail)%list
    ∧ (∀ t, delivered t tail = []).
Proof.
  intros Hsock Hcur. unfold node_update. rewrite Hsock, Hcur.
  destruct (Server.db st !! current) as [mindmap|];
    [|exists []; by rewrite app_nil_r].
  destruct (Js.findIndex _ _) as [nodeIndex|];
    [|exists []; by rewrite app_nil_r].
  destruct (MindMap.valid _); simpl.
  - by eexists [_].
  - exists []. by rewrite app_nil_r.
Qed.

(** One event: every other socket of the room gets it once, the sender
    never. *)
Lemma node_update_relayed_once st sid socket current nodeId updates now :
  Server.sockets st !! sid = Some socket →
  Js.truthy (Socket.currentMindmap socket) = Some current →
  let out := (node_update st sid (nodeId, updates) now).2 in
  (∀ t, t ∈ members st (room_of current) → t ≠ sid →
        delivered t out
        = [node_updated nodeId updates (Socket.username socket)])
  ∧ delivered sid out = [].
Proof.
  intros Hsock Hcur out.
  destruct (node_update_out st sid socket current nodeId updates now
              Hsock Hcur) as (tail & Hout & Htail).
  subst out. rewrite Hout. split.
  - intros t Hin Hne.
    by rewrite delivered_app, Htail, delivered_to_emit_other.
  - by rewrite delivered_app, Htail, delivered_to_emit_self.
Qed.

(** [node_update] touches neither the sockets nor the rooms. *)
Lemma node_update_frame st sid data now :
  Server.sockets (node_update st sid data now).1 = Server.sockets st
  ∧ Server.rooms (node_update st sid data now).1 = Server.rooms st.
Proof.
  unfold node_update.
  destruct (Server.sockets st !! sid) as [socket|]; [|done].
  destruct (Js.truthy _); [|done]. destruct data as [nodeId updates].
  destruct (Server.db st !! _); [|done].
  destruct (Js.findIndex _ _); [|done]. by destruct (MindMap.valid _).
Qed.

(** C6. A [node_update] of a socket that is in a room is relayed as one
    [node_updated] event, with the node id and the updates as submitted, to
    every other socket of the Socket.IO room of its current document, and
    nothing is delivered to the sending socket; of a sequence of such
    events, every other socket of the room receives all, in the order in
    which they were submitted. *)
Theorem node_update_relayed st sid socket current :
  Server.sockets st !! sid = Some socket →
  Js.truthy (Socket.currentMindmap socket) = Some current →
  (∀ nodeId updates now,
     let out := (node_update st sid (nodeId, updates) now).2 in
     (∀ t, t ∈ members st (room_of current) → t ≠ sid →
           delivered t out
           = [node_updated nodeId updates (Socket.username socket)])
     ∧ delivered sid out = [])
  ∧ (∀ events,
       let out := (node_updates st sid events).2 in
       (∀ t, t ∈ members st (room_of current) → t ≠ sid →
             delivered t out = relayed (Socket.username socket) <$> events)
       ∧ delivered sid out = []).
Proof.
  intros Hsock Hcur. split.
  - intros nodeId updates now. by apply node_update_relayed_once.
  - intros events. revert st Hsock.
    induction events as [|[[nodeId updates] now] events IH];
      intros st Hsock; [done|].
    simpl.
    destruct (node_update_relayed_once st sid socket current nodeId updates
                now Hsock Hcur) as [Hothers Hself].
    destruct (node_update_frame st sid (nodeId, updates) now)
      as [Hsockets Hrooms].
    destruct (node_update st sid (nodeId, updates) now) as [st1 out1].
    simpl in *.
    specialize (IH st1). rewrite Hsockets in IH. specialize (IH Hsock).
    destruct (node_updates st1 sid events) as [st2 out2]. simpl in *.
    destruct IH as [IHothers IHself]. split.
    + intros t Hin Hne. rewrite delivered_app, (Hothers t Hin Hne).
      simpl. f_equal. apply IHothers; [|done].
      unfold members in *. by rewrite Hrooms.
    + by rewrite delivered_app, Hself, IHself.
Qed.

(** C10. A [node_update] or a [cursor_move] of an authenticated socket
    that has joined no room, so that its [currentMindmap] is unset (or
    falsy), is dropped: the server state is unchanged and nothing is
    emitted, to the sender or to anyone else. *)
Theorem events_outside_room_dropped st sid socket data position now :
  Server.sockets st !! sid = Some socket →
  Js.truthy (Socket.currentMindmap socket) = None →
  node_update st sid data now = (st, [])
  ∧ cursor_move st sid position = (st, []).
Proof.
  intros Hsock Hcur. unfold node_update, cursor_move.
  by rewrite Hsock, Hcur.
Qed.

(** C4, as the code has it. A [node_update] whose node id is not among the
    nodes of the current document changes nothing on the server and writes
    nothing; the event is still relayed to every other socket of the room,
    and nothing, so no error either, is sent to the sender. *)
Theorem node_update_unknown_node st sid socket current mindmap nodeId updates
    now :
  Server.sockets st !! sid = Some socket →
  Js.truthy (Socket.currentMindmap socket) = Some current →
  Server.db st !! current = Some mindmap →
  nodeId ∉ MindMap.ids mindmap →
  let '(st', out) := node_update st sid (nodeId, updates) now in
  st' = st
  ∧ saves out = []
  ∧ delivered sid out = []
  ∧ ∀ t, t ∈ members st (room_of current) → t ≠ sid →
         delivered t out
         = [node_updated nodeId updates (Socket.username socket)].
Proof.
  intros Hsock Hcur Hdb Hnotin. unfold node_update.
  rewrite Hsock, Hcur, Hdb.
  assert (Js.findIndex (fun n => Node.id n =? nodeId) (MindMap.nodes mindmap)
          = None) as ->.
  { unfold MindMap.ids in Hnotin. induction (MindMap.nodes mindmap) as [|n l IH];
      [done|]. simpl in *. apply not_elem_of_cons in Hnotin as [Hne Hnotin].
    destruct (String.eqb_spec (Node.id n) nodeId); [congruence|].
    by rewrite IH. }
  split_and!; [done|apply saves_to_emit|apply delivered_to_emit_self|].
  intros t Hin Hne. by apply delivered_to_emit_other.
Qed.

(** ** Presence sets: object identity *)

Section Identity.

Context {A : Type}.
Implicit Types (s : list (Js.Obj A)) (v : A) (n : nat).

(** An object that has just been allocated is in no set yet. *)
Lemma set_has_fresh s n v :
  Forall (fun o => Js.addr o < n)%nat s → Js.set_has (Js.mkObj n v) s = false.
Proof.
  induction 1 as [|o s Hlt _ IH]; simpl; [done|].
  rewrite IH. destruct (Nat.eqb_spec (Js.addr o) n); [lia|done].
Qed.

Lemma set_add_fresh s n v :
  Forall (fun o => Js.addr o < n)%nat s →
  Js.set_add (Js.mkObj n v) s = (s ++ [Js.mkObj n v])%list.
Proof. intros Hs. unfold Js.set_add. by rewrite set_has_fresh. Qed.

(** Deleting an object that has just been allocated deletes nothing,
    whatever its fields are. *)
Lemma set_delete_fresh s n v :
  Forall (fun o => Js.addr o < n)%nat s → Js.set_delete (Js.mkObj n v) s = s.
Proof.
  induction 1 as [|o s Hlt _ IH]; [done|]. unfold Js.set_delete in *.
  rewrite filter_cons. simpl in *. case_decide; [by rewrite IH|lia].
Qed.

End Identity.

Section Heap.

Implicit Types (st : Server.t) (sid : nat).

Lemma heap_wf_init db users sockets rooms n :
  heap_wf (Server.mk db users sockets rooms ∅ n).
Proof. intros k s Hk. simpl in Hk. by rewrite lookup_empty in Hk. Qed.

(** [disconnect] leaves every presence set as it was: the object it asks
    the set to delete is not the object [join_mindmap] added. *)
Lemma disconnect_activeUsers st sid :
  heap_wf st →
  Server.activeUsers (disconnect st sid).1 = Server.activeUsers st.
Proof.
  intros Hwf. unfold disconnect.
  destruct (Server.sockets st !! sid) as [socket|]; [|done].
  destruct (Js.truthy (Socket.currentMindmap socket)) as [current|]; [|done].
  server_simpl.
  destruct (Server.activeUsers st !! current) as [mindmapUsers|] eqn:Hset;
    [|done].
  destruct (Hwf _ _ Hset) as [Hne Hlt].
  rewrite set_delete_fresh by done.
  destruct mindmapUsers; [done|]. simpl. by apply insert_id.
Qed.

Lemma join_mindmap_wf st sid mindmapId :
  heap_wf st → heap_wf (join_mindmap st sid mindmapId).1.
Proof.
  intros Hwf. unfold join_mindmap.
  destruct (Server.sockets st !! sid) as [socket|]; [|done].
  destruct (Server.db st !! mindmapId) as [mindmap|]; [|done].
  destruct (negb _); [done|]. intros k s. server_simpl.
  destruct (decide (mindmapId = k)) as [->|Hne].
  - rewrite lookup_insert_eq. intros [= <-].
    assert (Forall (fun o => Js.addr o < Server.nextAddr st)%nat
              (default [] (Server.activeUsers st !! k))) as Hlt.
    { destruct (Server.activeUsers st !! k) eqn:Hk; [|by constructor].
      by apply (Hwf _ _ Hk). }
    rewrite set_add_fresh by done. split; [by destruct (default _ _)|].
    apply Forall_app. split; [|repeat constructor; simpl; lia].
    eapply Forall_impl; [exact Hlt|]. simpl. lia.
  - rewrite lookup_insert_ne by done. intros Hk.
    destruct (Hwf _ _ Hk) as [? Hlt]. split; [done|].
    eapply Forall_impl; [exact Hlt|]. simpl. lia.
Qed.

Lemma disconnect_nextAddr st sid :
  (Server.nextAddr st ≤ Server.nextAddr (disconnect st sid).1)%nat.
Proof.
  unfold disconnect.
  destruct (Server.sockets st !! sid) as [socket|]; [|done].
  destruct (Js.truthy _) as [current|]; [|done]. server_simpl.
  destruct (Server.activeUsers st !! current); [|done].
  destruct (_ =? _)%nat; simpl; lia.
Qed.

Lemma disconnect_wf st sid : heap_wf st → heap_wf (disconnect st sid).1.
Proof.
  intros Hwf k s Hk. rewrite disconnect_activeUsers in Hk by done.
  destruct (Hwf _ _ Hk) as [? Hlt]. split; [done|].
  eapply Forall_impl; [exact Hlt|]. intros o Ho. simpl in Ho.
  pose proof (disconnect_nextAddr st sid). lia.
Qed.

Lemma node_update_wf st sid data now :
  heap_wf st → heap_wf (node_update st sid data now).1.
Proof.
  intros Hwf. unfold node_update.
  destruct (Server.sockets st !! sid) as [socket|]; [|done].
  destruct (Js.truthy _); [|done]. destruct data as [nodeId updates].
  destruct (Server.db st !! _); [|done].
  destruct (Js.findIndex _ _); [|done].
  by destruct (MindMap.valid _).
Qed.

End Heap.

(** ** Invariants of the server *)

Section Invariants.

Implicit Types (st : Server.t) (m : MindMap.t) (r : Request).

Lemma heap_wf_same st st' :
  Server.activeUsers st' = Server.activeUsers st →
  Server.nextAddr st' = Server.nextAddr st →
  heap_wf st → heap_wf st'.
Proof. intros Hsets Hnext Hwf k s. rewrite Hsets, Hnext. apply Hwf. Qed.

Lemma db_wf_same st st' : Server.db st' = Server.db st → db_wf st → db_wf st'.
Proof. intros Hdb Hwf k m. rewrite Hdb. apply Hwf. Qed.

Lemma db_wf_insert st k m :
  db_wf st → MindMap.valid m = true →
  NoDup (Collaborator.user <$> MindMap.collaborators m) →
  db_wf (Server.with_db (insert k m) st).
Proof.
  intros Hwf Hvalid Hnodup k' m'. server_simpl.
  destruct (decide (k = k')) as [->|Hne].
  - rewrite lookup_insert_eq. by intros [= <-].
  - rewrite lookup_insert_ne by done. apply Hwf.
Qed.

Lemma db_wf_delete st k : db_wf st → db_wf (Server.with_db (delete k) st).
Proof.
  intros Hwf k' m'. server_simpl. intros Hk'. apply (Hwf k').
  by apply lookup_delete_Some in Hk' as [_ ?].
Qed.

Lemma find_collaborator_None userId (l : list Collaborator.t) :
  find (fun c => Collaborator.user c =? userId) l = None →
  userId ∉ Collaborator.user <$> l.
Proof.
  induction l as [|c l IH]; simpl; [intros _ Hin; by inversion Hin|].
  destruct (String.eqb_spec (Collaborator.user c) userId); [done|].
  intros Hfind. apply not_elem_of_cons. split; [congruence|by apply IH].
Qed.

(** No handler breaks the allocator's invariant. *)
Lemma handle_heap_wf st r : heap_wf st → heap_wf (handle st r).
Proof.
  intros Hwf. destruct r; simpl.
  - unfold connect. by destruct (Server.sockets st !! sid).
  - by apply join_mindmap_wf.
  - by apply node_update_wf.
  - unfold cursor_move. destruct (Server.sockets st !! sid); [|done].
    by destruct (Js.truthy _).
  - by apply disconnect_wf.
  - unfold put_mindmap. destruct (Server.db st !! id); [|done].
    destruct (negb _); [done|]. by destruct (MindMap.valid _).
  - unfold delete_mindmap. destruct (Server.db st !! id); [|done].
    by destruct (negb _).
  - unfold post_comment. destruct (Js.truthy text); [|done].
    destruct (_ =? _); [done|].
    destruct (Server.db st !! mindmapId); [|done].
    destruct (negb _); [done|]. destruct (negb _); [done|].
    by destruct (MindMap.valid _).
  - unfold add_collaborator. destruct (Server.db st !! mindmapId); [|done].
    destruct (negb _); [done|]. destruct (Server.users st !! username);
      [|done].
    destruct (find _ _); [done|]. by destruct (MindMap.valid _).
Qed.

(** Every write goes through the validators, and a collaborator is pushed
    only when the user has no entry yet. *)
Lemma handle_db_wf st r : db_wf st → db_wf (handle st r).
Proof.
  intros Hwf. destruct r; simpl.
  - unfold connect. by destruct (Server.sockets st !! sid).
  - unfold join_mindmap. destruct (Server.sockets st !! sid); [|done].
    destruct (Server.db st !! mindmapId); [|done]. by destruct (negb _).
  - unfold node_update. destruct (Server.sockets st !! sid); [|done].
    destruct (Js.truthy _) as [current|]; [|done]. destruct data.
    destruct (Server.db st !! current) as [mindmap|] eqn:Hdb; [|done].
    destruct (Js.findIndex _ _); [|done].
    destruct (MindMap.valid _) eqn:Hvalid; [|done].
    apply db_wf_insert; [done..|]. by apply (Hwf _ _ Hdb).
  - unfold cursor_move. destruct (Server.sockets st !! sid); [|done].
    by destruct (Js.truthy _).
  - unfold disconnect. destruct (Server.sockets st !! sid); [|done].
    destruct (Js.truthy _) as [current|]; [|done]. server_simpl.
    destruct (Server.activeUsers st !! current); [|done].
    by destruct (_ =? _)%nat.
  - unfold put_mindmap.
    destruct (Server.db st !! id) as [mindmap|] eqn:Hdb; [|done].
    destruct (negb _); [done|].
    destruct (MindMap.valid _) eqn:Hvalid; [|done].
    apply db_wf_insert; [done..|]. by apply (Hwf _ _ Hdb).
  - unfold delete_mindmap. destruct (Server.db st !! id); [|done].
    destruct (negb _); [done|]. by apply db_wf_delete.
  - unfold post_comment. destruct (Js.truthy text); [|done].
    destruct (_ =? _); [done|].
    destruct (Server.db st !! mindmapId) as [mindmap|] eqn:Hdb; [|done].
    destruct (negb _); [done|]. destruct (negb _); [done|].
    destruct (MindMap.valid _) eqn:Hvalid; [|done].
    apply db_wf_insert; [done..|]. by apply (Hwf _ _ Hdb).
  - unfold add_collaborator.
    destruct (Server.db st !! mindmapId) as [mindmap|] eqn:Hdb; [|done].
    destruct (negb _); [done|].
    destruct (Server.users st !! username) as [userId|]; [|done].
    destruct (find _ _) eqn:Hfind; [done|].
    destruct (MindMap.valid _) eqn:Hvalid; [|done].
    apply db_wf_insert; [done..|]. simpl. rewrite fmap_app. simpl.
    apply NoDup_app. split_and!.
    + by apply (Hwf _ _ Hdb).
    + intros u Hin ->%list_elem_of_singleton.
      by eapply find_collaborator_None.
    + apply NoDup_singleton.
Qed.

(** The two invariants hold in every state the server reaches. *)
Lemma run_wf requests : ∀ st,
  heap_wf st → db_wf st →
  heap_wf (run st requests) ∧ db_wf (run st requests).
Proof.
  induction requests as [|r requests IH]; intros st Hheap Hdb; [done|].
  apply IH; [by apply handle_heap_wf|by apply handle_db_wf].
Qed.

(** A presence set never loses a member and is never reclaimed, whatever
    the server is asked to do: the only handler that means to remove a
    member, [disconnect], removes none. *)
Lemma handle_presence st r k s :
  heap_wf st →
  Server.activeUsers st !! k = Some s →
  ∃ s', Server.activeUsers (handle st r) !! k = Some (s ++ s')%list.
Proof.
  intros Hwf Hk.
  assert (∀ st', Server.activeUsers st' = Server.activeUsers st →
                 ∃ s', Server.activeUsers st' !! k = Some (s ++ s')%list)
    as Hsame.
  { intros st' ->. exists []. by rewrite app_nil_r. }
  destruct r; simpl.
  - apply Hsame. unfold connect. by destruct (Server.sockets st !! sid).
  - unfold join_mindmap.
    destruct (Server.sockets st !! sid) as [socket|]; [|by apply Hsame].
    destruct (Server.db st !! mindmapId); [|by apply Hsame].
    destruct (negb _); [by apply Hsame|]. server_simpl.
    destruct (decide (mindmapId = k)) as [->|Hne].
    + rewrite lookup_insert_eq, Hk. simpl.
      rewrite set_add_fresh by (by apply (Hwf _ _ Hk)). by eexists.
    + rewrite lookup_insert_ne by done. exists []. by rewrite app_nil_r.
  - apply Hsame. unfold node_update.
    destruct (Server.sockets st !! sid); [|done].
    destruct (Js.truthy _); [|done]. destruct data.
    destruct (Server.db st !! _); [|done].
    destruct (Js.findIndex _ _); [|done]. by destruct (MindMap.valid _).
  - apply Hsame. unfold cursor_move.
    destruct (Server.sockets st !! sid); [|done]. by destruct (Js.truthy _).
  - apply Hsame. by apply disconnect_activeUsers.
  - apply Hsame. unfold put_mindmap. destruct (Server.db st !! id); [|done].
    destruct (negb _); [done|]. by destruct (MindMap.valid _).
  - apply Hsame. unfold delete_mindmap.
    destruct (Server.db st !! id); [|done]. by destruct (negb _).
  - apply Hsame. unfold post_comment. destruct (Js.truthy text); [|done].
    destruct (_ =? _); [done|].
    destruct (Server.db st !! mindmapId); [|done].
    destruct (negb _); [done|]. destruct (negb _); [done|].
    by destruct (MindMap.valid _).
  - apply Hsame. unfold add_collaborator.
    destruct (Server.db st !! mindmapId); [|done].
    destruct (negb _); [done|].
    destruct (Server.users st !! username); [|done].
    destruct (find _ _); [done|]. by destruct (MindMap.valid _).
Qed.

Lemma run_presence requests : ∀ st k s,
  heap_wf st →
  Server.activeUsers st !! k = Some s →
  ∃ s', Server.activeUsers (run st requests) !! k = Some (s ++ s')%list.
Proof.
  induction requests as [|r requests IH]; intros st k s Hwf Hk.
  { exists []. by rewrite app_nil_r. }
  destruct (handle_presence st r k s Hwf Hk) as [s1 Hk1].
  destruct (IH (handle st r) k _ (handle_heap_wf st r Hwf) Hk1) as [s2 Hk2].
  exists (s1 ++ s2)%list. unfold run in *. simpl.
  by rewrite Hk2, app_assoc.
Qed.

End Invariants.

(** ** Joining *)

(** C2, as the code has it. The list sent to a joining socket as
    [active_users] is the presence set of the document as it was, followed
    by an entry for the joining socket itself; every other socket of the
    room receives exactly one [user_joined] event carrying the id and the
    name of the joiner. *)
Theorem join_mindmap_presence st sid socket mindmapId mindmap :
  heap_wf st →
  Server.sockets st !! sid = Some socket →
  Server.db st !! mindmapId = Some mindmap →
  hasAccess (Socket.userId socket) mindmap = true →
  let out := (join_mindmap st sid mindmapId).2 in
  delivered sid out
  = [active_users
       ((Js.val <$> default [] (Server.activeUsers st !! mindmapId))
        ++ [Socket.presence socket])]
  ∧ ∀ t, t ∈ members st (room_of mindmapId) → t ≠ sid →
         delivered t out = [user_joined (Socket.presence socket)].
Proof.
  intros Hwf Hsock Hdb Hacc. unfold join_mindmap.
  rewrite Hsock, Hdb, Hacc. server_simpl.
  assert (Forall (fun o => Js.addr o < Server.nextAddr st)%nat
            (default [] (Server.activeUsers st !! mindmapId))) as Hlt.
  { destruct (Server.activeUsers st !! mindmapId) eqn:Hk; [|by constructor].
    by apply (Hwf _ _ Hk). }
  rewrite set_add_fresh by done. rewrite fmap_app. simpl. split.
  - rewrite delivered_app, delivered_to_emit_self. simpl.
    by rewrite Nat.eqb_refl.
  - intros t Hin Hne. rewrite delivered_app. simpl.
    destruct (Nat.eqb_spec sid t); [congruence|].
    rewrite app_nil_r. apply delivered_to_emit_other; [|done].
    unfold members in *. simpl. rewrite lookup_insert_eq. simpl.
    apply elem_of_union. by right.
Qed.


(** ** The access checks against the levels of the specification *)

Section Access.

Implicit Types (userId : string) (mindmap : MindMap.t)
  (l : list Collaborator.t).

Lemma some_collaborator_find userId l :
  existsb (fun c => Collaborator.user c =? userId) l
  = bool_decide (is_Some (find (fun c => Collaborator.user c =? userId) l)).
Proof.
  induction l as [|c l IH]; simpl; [done|].
  by destruct (Collaborator.user c =? userId).
Qed.

(** With one entry per user at most, "some entry of the user grants write
    or admin" says that the entry of the user does. *)
Lemma some_writer_find userId l :
  NoDup (Collaborator.user <$> l) →
  existsb (fun c => (Collaborator.user c =? userId)
                    && includes_write_admin (Collaborator.permission c)) l
  = match find (fun c => Collaborator.user c =? userId) l with
    | Some c => includes_write_admin (Collaborator.permission c)
    | None => false
    end.
Proof.
  induction l as [|c l IH]; simpl; [done|]. intros Hnodup.
  apply NoDup_cons in Hnodup as [Hnotin Hnodup].
  destruct (String.eqb_spec (Collaborator.user c) userId) as [Heq|Hne];
    simpl; [|by apply IH].
  assert (existsb (fun c' => (Collaborator.user c' =? userId)
                    && includes_write_admin (Collaborator.permission c')) l
          = false) as ->; [|by rewrite orb_false_r].
  apply not_true_is_false. intros Hex. apply Hnotin.
  apply existsb_exists in Hex as (c' & Hin & Hc').
  apply andb_true_iff in Hc' as [Hc' _]. apply String.eqb_eq in Hc'.
  rewrite Heq, <- Hc'. apply list_elem_of_fmap_2. by apply list_elem_of_In.
Qed.

Lemma hasAccess_spec userId mindmap :
  hasAccess userId mindmap
  = bool_decide (is_Some (effective_permission_spec userId mindmap)).
Proof.
  unfold hasAccess, effective_permission_spec.
  destruct (MindMap.owner mindmap =? userId); simpl; [done|].
  rewrite some_collaborator_find.
  destruct (find _ _); simpl; [done|].
  by destruct (MindMap.isPublic mindmap).
Qed.

Lemma canEdit_spec userId mindmap :
  NoDup (Collaborator.user <$> MindMap.collaborators mindmap) →
  canEdit userId mindmap
  = at_least_write_spec (effective_permission_spec userId mindmap).
Proof.
  intros Hnodup. unfold canEdit, effective_permission_spec.
  destruct (MindMap.owner mindmap =? userId); simpl; [done|].
  rewrite some_writer_find by done.
  destruct (find _ _) as [c|]; simpl.
  - by destruct (Collaborator.permission c).
  - by destruct (MindMap.isPublic mindmap).
Qed.

End Access.

(** ** Comments *)

Section Comments.

Implicit Types (st : Server.t) (mindmap : MindMap.t) (s : string).

Lemma trim_empty : Js.trim "" = "".
Proof. reflexivity. Qed.

(** A string with something left after trimming is truthy. *)
Lemma truthy_trim s : Js.trim s ≠ "" → Js.truthy (Some s) = Some s.
Proof. by destruct s. Qed.

Lemma pretty_N_go_nonempty (x : N) s : s ≠ "" → pretty_N_go x s ≠ "".
Proof.
  revert s. induction (N.lt_wf_0 x) as [x _ IH]; intros s Hs.
  destruct (decide (x = 0)%N) as [->|Hx]; [by rewrite pretty_N_go_0|].
  rewrite pretty_N_go_step by lia. apply IH; [|done].
  apply N.div_lt; lia.
Qed.

(** [Date.now().toString()] is never the empty string. *)
Lemma pretty_N_nonempty (x : N) : pretty x ≠ "".
Proof.
  unfold pretty, pretty_N. case_decide; [done|].
  rewrite pretty_N_go_step by lia. by apply pretty_N_go_nonempty.
Qed.

Lemma eqb_empty_false s : s ≠ "" → (s =? "") = false.
Proof. intros. by apply String.eqb_neq. Qed.

(** The validators of the comments, key by key. *)
Lemma comments_valid (m : gmap string (list Comment.t)) :
  forallb (fun kv => forallb Comment.valid kv.2) (map_to_list m) = true
  ↔ ∀ k cs, m !! k = Some cs → forallb Comment.valid cs = true.
Proof.
  rewrite forallb_forall. split.
  - intros Hall k cs Hk. apply (Hall (k, cs)).
    by apply list_elem_of_In, elem_of_map_to_list.
  - intros Hall [k cs] Hin. apply (Hall k).
    by apply elem_of_map_to_list, list_elem_of_In.
Qed.

(** Pushing a valid comment keeps a valid document valid. *)
Lemma push_comment_valid mindmap nodeId comment now :
  MindMap.valid mindmap = true → Comment.valid comment = true →
  MindMap.valid (push_comment mindmap nodeId comment now) = true.
Proof.
  unfold MindMap.valid. intros Hvalid Hcomment.
  repeat (apply andb_true_iff in Hvalid as [Hvalid ?]).
  repeat (apply andb_true_iff; split); simpl; try done.
  apply comments_valid. intros k cs.
  destruct (decide (nodeId = k)) as [->|Hne].
  - rewrite lookup_insert_eq. intros [= <-]. rewrite forallb_app. simpl.
    rewrite Hcomment.
    destruct (MindMap.comments mindmap !! k) as [old|] eqn:Hold; simpl; [|done].
    rewrite andb_true_r. by eapply comments_valid.
  - rewrite lookup_insert_ne by done. by apply comments_valid.
Qed.

End Comments.


(** C8, as the code has it. With at most one collaborators entry per user,
    the checks of the routes are those of the effective permission of the
    specification (admin for the owner, else the permission of the user's
    entry, else read on a public document, else denied): [hasAccess] holds
    exactly when the permission is not denied and [canEdit] exactly when it
    is at least write. The document update, which replaces the nodes,
    answers 403 and changes nothing below write; the deletion, and the
    addition of a collaborator, answer 403 and change nothing for anyone but
    the owner. The creation of a comment asks for no more than read: it is
    answered 403 when the permission is denied, and with any permission a
    comment with some text, for a node id that the [Map] takes as a key, is
    accepted. *)
Theorem access_gate st user id mindmap body now username permission nodeId
    text :
  NoDup (Collaborator.user <$> MindMap.collaborators mindmap) →
  Server.db st !! id = Some mindmap →
  let level := effective_permission_spec (ReqUser.id user) mindmap in
  (MindMap.owner mindmap = ReqUser.id user → level = Some admin)
  ∧ hasAccess (ReqUser.id user) mindmap = bool_decide (is_Some level)
  ∧ canEdit (ReqUser.id user) mindmap = at_least_write_spec level
  ∧ (at_least_write_spec level = false →
     put_mindmap st user id body now
     = (st, [], Response.mk 403 (json_error "Permission denied")))
  ∧ (Response.status (put_mindmap st user id body now).2 = 200%nat →
     at_least_write_spec level = true)
  ∧ (MindMap.owner mindmap ≠ ReqUser.id user →
     delete_mindmap st user id
     = (st, [],
        Response.mk 403 (json_error "Only owner can delete mind map"))
     ∧ add_collaborator st user id username permission
       = (st, [],
          Response.mk 403 (json_error "Only owner can add collaborators")))
  ∧ (Response.status (delete_mindmap st user id).2 = 200%nat →
     MindMap.owner mindmap = ReqUser.id user)
  ∧ (Response.status
       (add_collaborator st user id username permission).2 = 200%nat →
     MindMap.owner mindmap = ReqUser.id user)
  ∧ (level = None → Js.trim text ≠ "" →
     post_comment st user id nodeId (Some text) now
     = (st, [], Response.mk 403 (json_error "Access denied")))
  ∧ (Response.status (post_comment st user id nodeId (Some text) now).2
     = 201%nat →
     is_Some level)
  ∧ (is_Some level → Js.trim text ≠ "" →
     MindMap.valid mindmap = true →
     ReqUser.id user ≠ "" → ReqUser.username user ≠ "" →
     Mongoose.checkValidKey nodeId = true →
     Response.status (post_comment st user id nodeId (Some text) now).2
     = 201%nat).
Proof.
  intros Hnodup Hdb level.
  pose proof (canEdit_spec (ReqUser.id user) mindmap Hnodup) as Hedit.
  pose proof (hasAccess_spec (ReqUser.id user) mindmap) as Hacc.
  fold level in Hedit, Hacc. split_and!.
  - intros Howner. unfold level, effective_permission_spec.
    by rewrite Howner, String.eqb_refl.
  - exact Hacc.
  - exact Hedit.
  - intros Hlow. unfold put_mindmap. by rewrite Hdb, Hedit, Hlow.
  - unfold put_mindmap. rewrite Hdb, Hedit.
    destruct (at_least_write_spec level); [done|]. simpl. discriminate.
  - intros Hne. unfold delete_mindmap, add_collaborator. rewrite Hdb.
    by destruct (String.eqb_spec (MindMap.owner mindmap) (ReqUser.id user)).
  - unfold delete_mindmap. rewrite Hdb.
    destruct (String.eqb_spec (MindMap.owner mindmap) (ReqUser.id user));
      [done|]. simpl. discriminate.
  - unfold add_collaborator. rewrite Hdb.
    destruct (String.eqb_spec (MindMap.owner mindmap) (ReqUser.id user));
      [done|]. simpl. discriminate.
  - intros Hnone Htext. unfold post_comment.
    rewrite truthy_trim, eqb_empty_false, Hdb, Hacc, Hnone by done.
    by rewrite bool_decide_eq_false_2 by (by intros [? ?]).
  - unfold post_comment. destruct (Js.truthy (Some text)); [|discriminate].
    destruct (_ =? _); [discriminate|]. rewrite Hdb, Hacc.
    case_bool_decide; [done|]. simpl. discriminate.
  - intros Hlevel Htext Hvalid Hid Hname Hkey. unfold post_comment.
    rewrite truthy_trim, eqb_empty_false, Hdb, Hacc, Hkey by done.
    rewrite bool_decide_eq_true_2 by done. simpl.
    rewrite push_comment_valid; [done..|]. unfold Comment.valid. simpl.
    rewrite !eqb_empty_false; auto using pretty_N_nonempty.
Qed.

(** ** The root node *)

Section Root.

Lemma roots_cons i ids :
  roots (i :: ids) = ((if decide (i = "root") then 1 else 0) + roots ids)%nat.
Proof. unfold roots. rewrite filter_cons. by case_decide. Qed.

(** Deleting the nodes of an id other than "root" keeps the roots. *)
Lemma roots_filter_other (selected : string) (l : list Editor.node) :
  selected ≠ "root" →
  roots (Editor.id <$> filter (fun n => Editor.id n ≠ selected) l)
  = roots (Editor.id <$> l).
Proof.
  intros Hne. induction l as [|n l IH]; [done|].
  rewrite filter_cons. case_decide as Hn.
  - rewrite !fmap_cons, !roots_cons. by rewrite IH.
  - rewrite fmap_cons, roots_cons, IH.
    rewrite decide_False; [done|congruence].
Qed.

Lemma deleteNode_roots (c : Editor.t) :
  roots (Editor.id <$> Editor.nodes (Editor.deleteNode c))
  = roots (Editor.id <$> Editor.nodes c).
Proof.
  unfold Editor.deleteNode.
  destruct (Editor.selectedNode c) as [selected|]; [|done].
  destruct (String.eqb_spec (Editor.id selected) "root"); [done|].
  simpl. by apply roots_filter_other.
Qed.

(** [Object.assign] with no [id] key keeps the id of the node. *)
Lemma assign_id n updates :
  Updates.id updates = None → Node.id (Updates.assign n updates) = Node.id n.
Proof. intros Hid. unfold Updates.assign. simpl. by rewrite Hid. Qed.

Lemma assign_node_ids mindmap nodeIndex updates now userId :
  Updates.id updates = None →
  MindMap.ids (assign_node mindmap nodeIndex updates now userId)
  = MindMap.ids mindmap.
Proof.
  intros Hid. unfold MindMap.ids, assign_node. simpl.
  generalize nodeIndex. induction (MindMap.nodes mindmap) as [|n l IH];
    intros [|i]; simpl; try done.
  - by rewrite Hid.
  - f_equal. apply IH.
Qed.

Lemma node_update_ids st sid nodeId updates now k :
  Updates.id updates = None →
  MindMap.ids <$> Server.db (node_update st sid (nodeId, updates) now).1 !! k
  = MindMap.ids <$> Server.db st !! k.
Proof.
  intros Hid. unfold node_update.
  destruct (Server.sockets st !! sid) as [socket|]; [|done].
  destruct (Js.truthy _) as [current|]; [|done].
  destruct (Server.db st !! current) as [mindmap|] eqn:Hdb; [|done].
  destruct (Js.findIndex _ _) as [nodeIndex|]; [|done].
  destruct (MindMap.valid _); [|done]. server_simpl.
  destruct (decide (current = k)) as [->|Hne].
  - rewrite lookup_insert_eq, Hdb. simpl. f_equal.
    by apply assign_node_ids.
  - by rewrite lookup_insert_ne.
Qed.

End Root.

(** C9, as the code has it. [deleteNode] of the editor deletes no node
    whose id is "root" and adds no node, so it keeps the number of root
    nodes; a [node_update] whose updates have no [id] key leaves the node
    ids of every stored document as they were. (The document update route
    stores the node list of the request as it comes.) *)
Theorem root_kept_by_deleteNode_and_field_updates c st sid nodeId updates
    now k :
  Updates.id updates = None →
  roots (Editor.id <$> Editor.nodes (Editor.deleteNode c))
  = roots (Editor.id <$> Editor.nodes c)
  ∧ MindMap.ids
      <$> Server.db (node_update st sid (nodeId, updates) now).1 !! k
    = MindMap.ids <$> Server.db st !! k.
Proof.
  intros Hid. split; [apply deleteNode_roots|by apply node_update_ids].
Qed.

(** ** Writes *)

Section Writes.

Implicit Types (st : Server.t) (mindmap : MindMap.t)
  (events : list (string * Updates.t * N)).





End Writes.

Section AutoSave.

Import Editor.
Implicit Types (a : autosave) (now : N) (run : list (N * happening)).





End AutoSave.


(** * More properties *)

#[local] Set Warnings "-clear-no-such-hyp".

(** ** Joining, moving the cursor, leaving *)

Section Sockets.

Implicit Types (st : Server.t) (sid t : nat) (socket : Socket.t).

(** X1. A [join_mindmap] for a stored mind map that the user of the
    socket may not read changes nothing on the server, so the socket joins
    no room and gets no presence entry: the socket is sent one [error]
    event, "Access denied", and nobody else is sent anything. *)
Theorem join_mindmap_refused st sid socket mindmapId mindmap :
  Server.sockets st !! sid = Some socket →
  Server.db st !! mindmapId = Some mindmap →
  hasAccess (Socket.userId socket) mindmap = false →
  join_mindmap st sid mindmapId = (st, [Deliver sid (error "Access denied")])
  ∧ delivered sid (join_mindmap st sid mindmapId).2 = [error "Access denied"]
  ∧ ∀ t, t ≠ sid → delivered t (join_mindmap st sid mindmapId).2 = [].
Proof.
  intros Hsock Hdb Hacc. unfold join_mindmap. rewrite Hsock, Hdb, Hacc.
  simpl. split_and!; [done|by rewrite Nat.eqb_refl|].
  intros t Hne. by destruct (Nat.eqb_spec sid t); [congruence|].
Qed.

(** X2. A [cursor_move] of a socket that is in a room reaches every other
    socket of the room once, with the coordinates as sent and the identity
    of the sender, and never the sender; it leaves the server as it was, so
    it is never stored. *)
Theorem cursor_move_relayed st sid socket current x y :
  Server.sockets st !! sid = Some socket →
  Js.truthy (Socket.currentMindmap socket) = Some current →
  let '(st', out) := cursor_move st sid (x, y) in
  st' = st
  ∧ saves out = []
  ∧ delivered sid out = []
  ∧ ∀ t, t ∈ members st (room_of current) → t ≠ sid →
         delivered t out
         = [cursor_moved (Socket.userId socket) (Socket.username socket)
                         x y].
Proof.
  intros Hsock Hcur. unfold cursor_move. rewrite Hsock, Hcur. simpl.
  split_and!; [done|apply saves_to_emit|apply delivered_to_emit_self|].
  intros t Hin Hne. by apply delivered_to_emit_other.
Qed.

Lemma members_leave_all st sid room :
  members (socket_leave_all sid st) room = members st room ∖ {[sid]}.
Proof.
  unfold members. server_simpl. rewrite lookup_fmap.
  destruct (Server.rooms st !! room); simpl; [done|set_solver].
Qed.

(** The rooms and the sockets after [disconnect]. *)
Lemma disconnect_frame st sid socket :
  Server.sockets st !! sid = Some socket →
  Server.sockets (disconnect st sid).1 = delete sid (Server.sockets st)
  ∧ Server.rooms (disconnect st sid).1
    = Server.rooms (socket_leave_all sid st)
  ∧ Server.db (disconnect st sid).1 = Server.db st.
Proof.
  intros Hsock. unfold disconnect. rewrite Hsock.
  destruct (Js.truthy _) as [current|]; [|done]. server_simpl.
  destruct (Server.activeUsers st !! current); [|done].
  by destruct (_ =? _)%nat.
Qed.

(** X3. When a socket disconnects it is gone from the sockets and from
    every room, the stored mind maps are untouched, and no emission to a
    room, whoever sends it, reaches it any more. *)
Theorem disconnect_leaves st sid socket :
  Server.sockets st !! sid = Some socket →
  let st' := (disconnect st sid).1 in
  Server.sockets st' !! sid = None
  ∧ Server.db st' = Server.db st
  ∧ (∀ room, sid ∉ members st' room)
  ∧ ∀ room t e,
      delivered sid (to_emit st' t room e) = []
      ∧ delivered sid (io_emit st' room e) = [].
Proof.
  intros Hsock st'.
  destruct (disconnect_frame st sid socket Hsock) as (Hsockets & Hrooms & Hdb).
  assert (∀ room, sid ∉ members st' room) as Hout.
  { intros room. unfold members. subst st'. rewrite Hrooms.
    fold (members (socket_leave_all sid st) room).
    rewrite members_leave_all. set_solver. }
  split_and!; [|done|done|].
  - subst st'. rewrite Hsockets. apply lookup_delete_eq.
  - intros room t e. split.
    + by apply delivered_to_emit_outside.
    + apply delivered_fmap_notin. rewrite elem_of_elements. apply Hout.
Qed.

(** X4. In a state the server reaches, the disconnection of a socket that
    is in a room is announced: every other socket of the room receives one
    [user_left] event with the id and the name of the user, and the socket
    itself receives nothing. *)
Theorem disconnect_announced st sid socket current :
  heap_wf st → rooms_wf st →
  Server.sockets st !! sid = Some socket →
  Js.truthy (Socket.currentMindmap socket) = Some current →
  let out := (disconnect st sid).2 in
  delivered sid out = []
  ∧ ∀ t, t ∈ members st (room_of current) → t ≠ sid →
         delivered t out = [user_left (Socket.presence socket)].
Proof.
  intros Hheap [_ Hjoined] Hsock Hcur.
  assert (Socket.currentMindmap socket = Some current) as Hcurrent.
  { destruct (Socket.currentMindmap socket) as [[|]|]; simpl in *; congruence. }
  destruct (Hjoined sid socket current Hsock Hcurrent)
    as (_ & s & Hset & _).
  destruct (Hheap _ _ Hset) as [Hne Hlt].
  unfold disconnect. rewrite Hsock, Hcur. server_simpl. rewrite Hset.
  rewrite set_delete_fresh by done.
  destruct s as [|o s]; [done|]. simpl. split.
  - apply delivered_fmap_notin. rewrite elem_of_elements. set_solver.
  - intros t Hin Hnet. apply delivered_fmap_in; [apply NoDup_elements|].
    apply elem_of_elements.
    change (t ∈ members (socket_leave_all sid st) (room_of current)
                ∖ {[sid]}).
    rewrite members_leave_all. set_solver.
Qed.

End Sockets.

(** ** Rooms, sockets and presence *)

Section Rooms.

Implicit Types (st : Server.t) (sid t : nat) (socket : Socket.t).

(** A state that differs only in its stored mind maps. *)
Lemma rooms_wf_same st st' :
  Server.sockets st' = Server.sockets st →
  Server.rooms st' = Server.rooms st →
  Server.activeUsers st' = Server.activeUsers st →
  rooms_wf st → rooms_wf st'.
Proof.
  intros Hsockets Hrooms Hsets [Hconn Hjoined]. unfold rooms_wf, members.
  rewrite Hsockets, Hrooms, Hsets. by split.
Qed.

Lemma connect_rooms_wf st sid userId username :
  rooms_wf st → rooms_wf (connect st sid userId username).1.
Proof.
  intros [Hconn Hjoined]. unfold connect.
  destruct (Server.sockets st !! sid) eqn:Hsid; [done|]. split.
  - intros room t Hin. server_simpl. destruct (decide (sid = t)) as [->|Hne].
    + rewrite lookup_insert_eq. by eexists.
    + rewrite lookup_insert_ne by done. by eapply Hconn.
  - intros sid' socket d. server_simpl.
    destruct (decide (sid = sid')) as [->|Hne].
    + rewrite lookup_insert_eq. by intros [= <-].
    + rewrite lookup_insert_ne by done. apply Hjoined.
Qed.

Lemma join_mindmap_rooms_wf st sid mindmapId :
  heap_wf st → rooms_wf st → rooms_wf (join_mindmap st sid mindmapId).1.
Proof.
  intros Hheap [Hconn Hjoined]. unfold join_mindmap.
  destruct (Server.sockets st !! sid) as [socket|] eqn:Hsock; [|done].
  destruct (Server.db st !! mindmapId) as [mindmap|]; [|done].
  destruct (negb _); [done|].
  assert (Forall (fun o => Js.addr o < Server.nextAddr st)%nat
            (default [] (Server.activeUsers st !! mindmapId))) as Hlt.
  { destruct (Server.activeUsers st !! mindmapId) eqn:Hk; [|by constructor].
    by apply (Hheap _ _ Hk). }
  split.
  - intros room t. unfold members. server_simpl.
    destruct (decide (room_of mindmapId = room)) as [<-|Hroom].
    + rewrite lookup_insert_eq. simpl. intros [->%elem_of_singleton|Hin]%elem_of_union.
      * rewrite lookup_insert_eq. by eexists.
      * destruct (decide (sid = t)) as [->|Hne];
          [rewrite lookup_insert_eq; by eexists|].
        rewrite lookup_insert_ne by done. by eapply Hconn.
    + rewrite lookup_insert_ne by done. intros Hin.
      destruct (decide (sid = t)) as [->|Hne];
        [rewrite lookup_insert_eq; by eexists|].
      rewrite lookup_insert_ne by done. by eapply Hconn.
  - intros sid' socket' d. unfold members. server_simpl.
    rewrite set_add_fresh by done.
    destruct (decide (sid = sid')) as [<-|Hne].
    + rewrite lookup_insert_eq. intros [= <-]. simpl. intros [= <-].
      rewrite !lookup_insert_eq. simpl. split; [set_solver|].
      eexists. split; [done|]. rewrite fmap_app. simpl.
      apply elem_of_app. right. by apply list_elem_of_singleton.
    + rewrite lookup_insert_ne by done. intros Hsock' Hd.
      destruct (Hjoined sid' socket' d Hsock' Hd) as (Hin & s & Hset & Hpres).
      split.
      * destruct (decide (room_of mindmapId = room_of d)) as [Heq|Hroom].
        -- rewrite Heq, lookup_insert_eq. simpl.
           unfold members in Hin. rewrite <- Heq in Hin. set_solver.
        -- by rewrite lookup_insert_ne.
      * destruct (decide (mindmapId = d)) as [->|Hd'].
        -- rewrite lookup_insert_eq, Hset. simpl. eexists. split; [done|].
           rewrite fmap_app. apply elem_of_app. by left.
        -- rewrite lookup_insert_ne by done. by exists s.
Qed.

Lemma disconnect_rooms_wf st sid :
  heap_wf st → rooms_wf st → rooms_wf (disconnect st sid).1.
Proof.
  intros Hheap [Hconn Hjoined].
  destruct (Server.sockets st !! sid) as [socket|] eqn:Hsock.
  2: { unfold disconnect. by rewrite Hsock. }
  destruct (disconnect_frame st sid socket Hsock) as (Hsockets & Hrooms & _).
  pose proof (disconnect_activeUsers st sid Hheap) as Hsets.
  assert (∀ room, members (disconnect st sid).1 room
                  = members st room ∖ {[sid]}) as Hmembers.
  { intros room. unfold members at 1. rewrite Hrooms.
    apply members_leave_all. }
  split.
  - intros room t. rewrite Hmembers, Hsockets.
    intros [Hin Hne%not_elem_of_singleton]%elem_of_difference.
    rewrite lookup_delete_ne by done. by eapply Hconn.
  - intros sid' socket' d. rewrite Hsockets, Hmembers, Hsets.
    intros [Hne Hsock']%lookup_delete_Some Hd.
    destruct (Hjoined sid' socket' d Hsock' Hd) as (Hin & Hset).
    split; [set_solver|done].
Qed.

(** No handler breaks the agreement of rooms, sockets and presence. *)
Lemma handle_rooms_wf st r :
  heap_wf st → rooms_wf st → rooms_wf (handle st r).
Proof.
  intros Hheap Hwf. destruct r; simpl.
  - by apply connect_rooms_wf.
  - by apply join_mindmap_rooms_wf.
  - destruct (node_update_frame st sid data now) as [Hsockets Hrooms].
    apply (rooms_wf_same st); [done..| |done]. unfold node_update.
    destruct (Server.sockets st !! sid); [|done].
    destruct (Js.truthy _); [|done]. destruct data.
    destruct (Server.db st !! _); [|done].
    destruct (Js.findIndex _ _); [|done]. by destruct (MindMap.valid _).
  - unfold cursor_move. destruct (Server.sockets st !! sid); [|done].
    by destruct (Js.truthy _).
  - by apply disconnect_rooms_wf.
  - unfold put_mindmap. destruct (Server.db st !! id); [|done].
    destruct (negb _); [done|]. by destruct (MindMap.valid _).
  - unfold delete_mindmap. destruct (Server.db st !! id); [|done].
    by destruct (negb _).
  - unfold post_comment. destruct (Js.truthy text); [|done].
    destruct (_ =? _); [done|].
    destruct (Server.db st !! mindmapId); [|done].
    destruct (negb _); [done|]. destruct (negb _); [done|].
    by destruct (MindMap.valid _).
  - unfold add_collaborator. destruct (Server.db st !! mindmapId); [|done].
    destruct (negb _); [done|].
    destruct (Server.users st !! username); [|done].
    destruct (find _ _); [done|]. by destruct (MindMap.valid _).
Qed.

(** X5. Whatever the server is asked to do, starting with no socket in a
    room, every member of a room is a connected socket, and every
    connected socket that has a current mind map is in the room of that
    mind map and is listed in its presence set. *)
Theorem run_rooms_wf requests : ∀ st,
  heap_wf st → rooms_wf st →
  heap_wf (run st requests) ∧ rooms_wf (run st requests).
Proof.
  induction requests as [|r requests IH]; intros st Hheap Hrooms; [done|].
  apply IH; [by apply handle_heap_wf|by apply handle_rooms_wf].
Qed.

End Rooms.

(** ** What a stored mind map keeps *)

Section Keeps.

Implicit Types (st : Server.t) (m : MindMap.t) (r : Request).

Lemma extends_refl m : extends m m.
Proof. by split_and!. Qed.

Lemma extends_trans m1 m2 m3 : extends m1 m2 → extends m2 m3 → extends m1 m3.
Proof.
  intros (Ho1 & Hc1 & Hl1 & Hk1) (Ho2 & Hc2 & Hl2 & Hk2). split_and!.
  - congruence.
  - congruence.
  - by trans (MindMap.collaborators m2).
  - intros nodeId. by trans (default [] (MindMap.comments m2 !! nodeId)).
Qed.

Lemma keeps_same st st' k m' :
  Server.db st' = Server.db st →
  Server.db st' !! k = Some m' →
  ∃ m, Server.db st !! k = Some m ∧ extends m m'.
Proof. intros -> Hk. exists m'. split; [done|apply extends_refl]. Qed.

Lemma keeps_insert st k0 m0 m1 k m' :
  Server.db st !! k0 = Some m0 → extends m0 m1 →
  Server.db (Server.with_db (insert k0 m1) st) !! k = Some m' →
  ∃ m, Server.db st !! k = Some m ∧ extends m m'.
Proof.
  intros Hk0 Hext. server_simpl. destruct (decide (k0 = k)) as [->|Hne].
  - rewrite lookup_insert_eq. intros [= <-]. by exists m0.
  - rewrite lookup_insert_ne by done. intros Hk. exists m'.
    split; [done|apply extends_refl].
Qed.

Lemma push_comment_extends m nodeId comment now :
  extends m (push_comment m nodeId comment now).
Proof.
  split_and!; try done. intros k. simpl.
  destruct (decide (nodeId = k)) as [->|Hne].
  - rewrite lookup_insert_eq. simpl. by apply prefix_app_r.
  - by rewrite lookup_insert_ne.
Qed.

Lemma push_collaborator_extends m c : extends m (push_collaborator m c).
Proof. split_and!; try done. simpl. by apply prefix_app_r. Qed.

(** One request. *)
Lemma handle_keeps st r k m' :
  Server.db (handle st r) !! k = Some m' →
  ∃ m, Server.db st !! k = Some m ∧ extends m m'.
Proof.
  destruct r; simpl.
  - apply keeps_same. unfold connect. by destruct (Server.sockets st !! sid).
  - apply keeps_same. unfold join_mindmap.
    destruct (Server.sockets st !! sid); [|done].
    destruct (Server.db st !! mindmapId); [|done]. by destruct (negb _).
  - unfold node_update.
    destruct (Server.sockets st !! sid); [|by apply keeps_same].
    destruct (Js.truthy _) as [current|]; [|by apply keeps_same].
    destruct data as [nodeId updates].
    destruct (Server.db st !! current) as [mindmap|] eqn:Hdb;
      [|by apply keeps_same].
    destruct (Js.findIndex _ _); [|by apply keeps_same].
    destruct (MindMap.valid _); [|by apply keeps_same].
    apply (keeps_insert st current mindmap); [done|by split_and!].
  - apply keeps_same. unfold cursor_move.
    destruct (Server.sockets st !! sid); [|done]. by destruct (Js.truthy _).
  - destruct (Server.sockets st !! sid) as [socket|] eqn:Hsock.
    + apply keeps_same. by apply (disconnect_frame st sid socket).
    + apply keeps_same. unfold disconnect. by rewrite Hsock.
  - unfold put_mindmap.
    destruct (Server.db st !! id) as [mindmap|] eqn:Hdb;
      [|by apply keeps_same].
    destruct (negb _); [by apply keeps_same|].
    destruct (MindMap.valid _); [|by apply keeps_same].
    apply (keeps_insert st id mindmap); [done|by split_and!].
  - unfold delete_mindmap.
    destruct (Server.db st !! id); [|by apply keeps_same].
    destruct (negb _); [by apply keeps_same|]. server_simpl.
    intros [_ Hk]%lookup_delete_Some. exists m'.
    split; [done|apply extends_refl].
  - unfold post_comment. destruct (Js.truthy text); [|by apply keeps_same].
    destruct (_ =? _); [by apply keeps_same|].
    destruct (Server.db st !! mindmapId) as [mindmap|] eqn:Hdb;
      [|by apply keeps_same].
    destruct (negb _); [by apply keeps_same|].
    destruct (negb _); [by apply keeps_same|].
    destruct (MindMap.valid _); [|by apply keeps_same].
    apply (keeps_insert st mindmapId mindmap);
      [done|apply push_comment_extends].
  - unfold add_collaborator.
    destruct (Server.db st !! mindmapId) as [mindmap|] eqn:Hdb;
      [|by apply keeps_same].
    destruct (negb _); [by apply keeps_same|].
    destruct (Server.users st !! username); [|by apply keeps_same].
    destruct (find _ _); [by apply keeps_same|].
    destruct (MindMap.valid _); [|by apply keeps_same].
    apply (keeps_insert st mindmapId mindmap);
      [done|apply push_collaborator_extends].
Qed.

(** X6. Whatever sequence of socket events and of update, delete, comment
    and collaborator requests the server handles, a mind map that is
    stored at the end was stored at the start under the same id, with the
    same owner and date of creation; its collaborators and the comments of
    each of its nodes are those of the start, followed by the ones added
    since: none is removed, changed or reordered. *)
Theorem run_keeps requests : ∀ st k m',
  Server.db (run st requests) !! k = Some m' →
  ∃ m, Server.db st !! k = Some m ∧ extends m m'.
Proof.
  induction requests as [|r requests IH]; intros st k m' Hk.
  { exists m'. split; [done|apply extends_refl]. }
  destruct (IH (handle st r) k m' Hk) as (m1 & Hk1 & Hext1).
  destruct (handle_keeps st r k m1 Hk1) as (m & Hk0 & Hext0).
  exists m. split; [done|by eapply extends_trans].
Qed.

End Keeps.

(** ** Reading, deleting, saving and loading *)

Section Documents.

Implicit Types (st : Server.t) (m mindmap : MindMap.t) (user : ReqUser.t).

(** Whoever may update a mind map may read it. *)
Lemma canEdit_hasAccess userId mindmap :
  canEdit userId mindmap = true → hasAccess userId mindmap = true.
Proof.
  unfold canEdit, hasAccess.
  destruct (MindMap.owner mindmap =? userId); [done|]. simpl.
  intros Hex. apply existsb_exists in Hex as (c & Hin & Hc).
  apply andb_true_iff in Hc as [Hc _].
  apply orb_true_iff. left. apply existsb_exists. by exists c.
Qed.

(** X7. Once its owner has deleted a mind map, the mind map is gone for
    every route and every user: reading, updating, deleting it again and
    adding a collaborator are answered 404 and a comment with some text
    too, a socket that asks to join is sent "Mind map not found", and the
    [node_update] of a socket that is still in its room changes nothing and
    writes nothing. The other mind maps are untouched. *)
Theorem deleted_is_gone st user id mindmap :
  Server.db st !! id = Some mindmap →
  MindMap.owner mindmap = ReqUser.id user →
  let st' := (delete_mindmap st user id).1.1 in
  Response.status (delete_mindmap st user id).2 = 200%nat
  ∧ (∀ k, k ≠ id → Server.db st' !! k = Server.db st !! k)
  ∧ (∀ u, Response.status (get_mindmap st' u id) = 404%nat)
  ∧ (∀ u body now,
       put_mindmap st' u id body now
       = (st', [], Response.mk 404 (json_error "Mind map not found")))
  ∧ (∀ u, delete_mindmap st' u id
          = (st', [], Response.mk 404 (json_error "Mind map not found")))
  ∧ (∀ u username permission,
       add_collaborator st' u id username permission
       = (st', [], Response.mk 404 (json_error "Mind map not found")))
  ∧ (∀ u nodeId text now,
       Js.trim text ≠ "" →
       post_comment st' u id nodeId (Some text) now
       = (st', [], Response.mk 404 (json_error "Mind map not found")))
  ∧ (∀ sid socket,
       Server.sockets st' !! sid = Some socket →
       join_mindmap st' sid id
       = (st', [Deliver sid (error "Mind map not found")]))
  ∧ (∀ sid socket data now,
       Server.sockets st' !! sid = Some socket →
       Js.truthy (Socket.currentMindmap socket) = Some id →
       (node_update st' sid data now).1 = st'
       ∧ saves (node_update st' sid data now).2 = []).
Proof.
  intros Hdb Howner st'.
  assert (delete_mindmap st user id
          = (Server.with_db (delete id) st, [Removed id],
             Response.mk 200 (json_message "Mind map deleted successfully")))
    as Hdel.
  { unfold delete_mindmap. rewrite Hdb, Howner. by rewrite String.eqb_refl. }
  subst st'. rewrite Hdel. simpl.
  set (st' := Server.with_db (delete id) st).
  assert (Server.db st' !! id = None) as Hgone by apply lookup_delete_eq.
  split_and!.
  - done.
  - intros k Hne. by apply lookup_delete_ne.
  - intros u. unfold get_mindmap. by rewrite Hgone.
  - intros u body now. unfold put_mindmap. by rewrite Hgone.
  - intros u. unfold delete_mindmap. by rewrite Hgone.
  - intros u username permission. unfold add_collaborator. by rewrite Hgone.
  - intros u nodeId text now Htext. unfold post_comment.
    rewrite truthy_trim, eqb_empty_false by done. by rewrite Hgone.
  - intros sid socket Hsock. unfold join_mindmap.
    change (Server.sockets st') with (Server.sockets st).
    by rewrite Hsock, Hgone.
  - intros sid socket [nodeId updates] now Hsock Hcur. unfold node_update.
    change (Server.sockets st') with (Server.sockets st).
    rewrite Hsock, Hcur, Hgone. simpl. split; [done|apply saves_to_emit].
Qed.

(** The six fields of a node survive the way to the collection and back. *)
Lemma loadNodes_processed nodes username now links comments owner
    collaborators isPublic tags createdAt updatedAt lastModifiedBy title
    description :
  nodes ≠ [] →
  Client.loadNodes
    (MindMap.mk title description
       (processedNodes (Client.cleanNodes nodes) username now)
       links comments owner collaborators isPublic tags createdAt updatedAt
       lastModifiedBy)
  = nodes.
Proof.
  intros Hne. unfold Client.loadNodes, processedNodes, Client.cleanNodes.
  simpl. rewrite !length_fmap.
  destruct nodes as [|n nodes]; [done|]. simpl.
  rewrite <- !list_fmap_compose. f_equal; [by destruct n|].
  rewrite <- (list_fmap_id nodes) at 2. apply list_fmap_ext.
  by intros _ [] _.
Qed.

(** X8. What the editor saves it loads again: when the update that
    [saveMindMap] requests is accepted, reading the mind map back and
    loading it as [loadMindMap] does gives the nodes of the editor, field by
    field and in order, its links with each end reduced to the id of its
    node, and its privacy switch. *)
Theorem save_load_roundtrip st user id mindmap meta c body now :
  Server.db st !! id = Some mindmap →
  Client.saveMindMap meta c = Some body →
  Response.status (put_mindmap st user id body now).2 = 200%nat →
  let st' := (put_mindmap st user id body now).1.1 in
  ∃ stored,
    get_mindmap st' user id = Response.mk 200 (json_mindmap stored)
    ∧ Client.loadNodes stored = Editor.nodes c
    ∧ Client.loadLinks stored
      = (fun l =>
           Editor.mk_link (Editor.by_id (Client.end_id (Editor.source l)))
                          (Editor.by_id (Client.end_id (Editor.target l))))
          <$> Editor.links c
    ∧ Client.loadPrivate stored = Client.isPrivate meta.
Proof.
  intros Hdb Hsave. unfold Client.saveMindMap in Hsave.
  destruct (Nat.eqb_spec (length (Editor.nodes c)) 0) as [|Hlen]; [done|].
  injection Hsave as <-. unfold put_mindmap. rewrite Hdb.
  destruct (canEdit (ReqUser.id user) mindmap) eqn:Hedit; simpl; [|done].
  destruct (MindMap.valid _) eqn:Hvalid; simpl; [|done]. intros _.
  eexists. split_and!.
  - unfold get_mindmap. server_simpl. rewrite lookup_insert_eq.
    assert (hasAccess (ReqUser.id user)
              (put_assign mindmap (Client.mindMapData meta c) user now)
            = true) as ->; [|done].
    apply canEdit_hasAccess. exact Hedit.
  - apply loadNodes_processed. intros Hnil. by rewrite Hnil in Hlen.
  - unfold Client.loadLinks.
    change (MindMap.links
              (put_assign mindmap (Client.mindMapData meta c) user now))
      with (Client.cleanLinks (Editor.links c)).
    unfold Client.cleanLinks. by rewrite <- list_fmap_compose.
  - unfold Client.loadPrivate. simpl. apply negb_involutive.
Qed.

End Documents.

(** ** Collaborators and new mind maps *)

Section Sharing.

Implicit Types (st : Server.t) (mindmap : MindMap.t) (user : ReqUser.t)
  (l : list Collaborator.t).

Lemma find_collaborator_not userId l w :
  find (fun c => Collaborator.user c =? userId) l = None →
  existsb (fun c => (Collaborator.user c =? userId) && w c) l = false.
Proof.
  induction l as [|c l IH]; simpl; [done|].
  destruct (Collaborator.user c =? userId); [done|]. exact IH.
Qed.

Lemma find_collaborator_last userId l p :
  is_Some (find (fun c => Collaborator.user c =? userId)
                (l ++ [Collaborator.mk userId p])).
Proof.
  induction l as [|c l IH]; simpl.
  - rewrite String.eqb_refl. by eexists.
  - destruct (Collaborator.user c =? userId); [by eexists|exact IH].
Qed.

(** X9. When the owner adds a registered user who has no entry yet, the
    user may read the mind map from then on and may update it exactly when
    the permission given is write or admin (or the user is the owner);
    left out, the permission is read, which allows no update. The rights of
    every other user are what they were, and adding the same user again is
    answered 400 and changes nothing. *)
Theorem add_collaborator_grants st user mindmapId mindmap username userId
    permission :
  Server.db st !! mindmapId = Some mindmap →
  MindMap.owner mindmap = ReqUser.id user →
  Server.users st !! username = Some userId →
  find (fun c => Collaborator.user c =? userId)
       (MindMap.collaborators mindmap) = None →
  MindMap.valid mindmap = true →
  let '(st', out, response) :=
    add_collaborator st user mindmapId username permission in
  Response.status response = 200%nat
  ∧ ∃ mindmap',
      Server.db st' !! mindmapId = Some mindmap'
      ∧ hasAccess userId mindmap' = true
      ∧ canEdit userId mindmap'
        = (MindMap.owner mindmap =? userId)
          || includes_write_admin (default read permission)
      ∧ (∀ other, other ≠ userId →
           hasAccess other mindmap' = hasAccess other mindmap
           ∧ canEdit other mindmap' = canEdit other mindmap)
      ∧ ∀ again,
          add_collaborator st' user mindmapId username again
          = (st', [],
             Response.mk 400 (json_error "User is already a collaborator")).
Proof.
  intros Hdb Howner Huser Hfind Hvalid. unfold add_collaborator.
  rewrite Hdb, Howner, String.eqb_refl, Huser, Hfind. simpl.
  set (c := Collaborator.mk userId (default read permission)).
  assert (MindMap.valid (push_collaborator mindmap c) = true) as ->
    by exact Hvalid.
  split; [done|]. exists (push_collaborator mindmap c). split_and!.
  - unfold Server.with_db. simpl. apply lookup_insert_eq.
  - unfold hasAccess. simpl. rewrite existsb_app. simpl.
    rewrite String.eqb_refl. simpl.
    by rewrite orb_true_r, orb_true_r.
  - unfold canEdit. simpl. rewrite existsb_app. simpl.
    rewrite String.eqb_refl, find_collaborator_not by done. simpl.
    by rewrite orb_false_r, Howner.
  - intros other Hne. unfold hasAccess, canEdit. simpl.
    rewrite !existsb_app. simpl.
    destruct (String.eqb_spec userId other); [congruence|]. simpl.
    by rewrite !orb_false_r.
  - intros again. server_simpl. rewrite lookup_insert_eq. simpl.
    rewrite Howner, String.eqb_refl, Huser. simpl.
    destruct (find_collaborator_last userId
                (MindMap.collaborators mindmap) (default read permission))
      as [existing Hexisting].
    fold c in Hexisting. by rewrite Hexisting.
Qed.

(** X10. A new mind map needs a title and a list of nodes, which may be
    empty: without either the answer is 400 and nothing is stored. A mind
    map that is created is stored under the new id and leaves the others
    as they were; it belongs to the requester, has no collaborators and no
    comments, keeps the ids of the nodes of the request in order and
    records the requester as the creator of each node, whatever the request
    says. The requester may update it; anybody else may not, and may read
    it exactly when it is public. And a mind map is created when the title
    has something left after trimming, every node has an id, a text and a
    colour, every link has its two ends, and the requester has a name. *)
Theorem post_mindmap_creates st user body newId now :
  (Js.truthy (PutBody.title body) = None ∨ PutBody.nodes body = None →
   post_mindmap st user body newId now
   = (st, [], Response.mk 400 (json_error "Title and nodes are required")))
  ∧ (Response.status (post_mindmap st user body newId now).2 = 201%nat →
     let st' := (post_mindmap st user body newId now).1.1 in
     Server.db st !! newId = None
     ∧ (∀ k, k ≠ newId → Server.db st' !! k = Server.db st !! k)
     ∧ ∃ mindmap,
         Server.db st' !! newId = Some mindmap
         ∧ MindMap.owner mindmap = ReqUser.id user
         ∧ MindMap.collaborators mindmap = []
         ∧ MindMap.comments mindmap = ∅
         ∧ Some (MindMap.ids mindmap)
           = (fun nodes : list NodeInput.t => NodeInput.id <$> nodes)
               <$> PutBody.nodes body
         ∧ Forall (fun n => Node.createdBy n = ReqUser.username user)
                  (MindMap.nodes mindmap)
         ∧ canEdit (ReqUser.id user) mindmap = true
         ∧ ∀ other, other ≠ ReqUser.id user →
             canEdit other mindmap = false
             ∧ hasAccess other mindmap = MindMap.isPublic mindmap)
  ∧ (∀ title nodes,
       Js.truthy (PutBody.title body) = Some title →
       PutBody.nodes body = Some nodes →
       Js.trim title ≠ "" → ReqUser.username user ≠ "" →
       Forall (fun node => NodeInput.id node ≠ "" ∧ NodeInput.text node ≠ ""
                           ∧ NodeInput.color node ≠ "") nodes →
       forallb Link.valid (default [] (PutBody.links body)) = true →
       Server.db st !! newId = None →
       Response.status (post_mindmap st user body newId now).2 = 201%nat).
Proof.
  unfold post_mindmap. split_and!.
  - intros [->|Hnodes]; [done|]. rewrite Hnodes.
    by destruct (Js.truthy _).
  - destruct (Js.truthy (PutBody.title body)) as [title|]; [|done].
    destruct (PutBody.nodes body) as [nodes|]; [|done].
    destruct (MindMap.valid _); simpl; [|done].
    case_bool_decide as Hfresh; simpl; [|done]. intros _.
    split_and!; [done| |].
    { intros k Hne. by rewrite lookup_insert_ne. }
    eexists. split_and!.
    + by rewrite lookup_insert_eq.
    + done.
    + done.
    + done.
    + unfold MindMap.ids. simpl. f_equal. by rewrite <- list_fmap_compose.
    + simpl. apply Forall_fmap. by apply Forall_true.
    + unfold canEdit. simpl. by rewrite String.eqb_refl.
    + intros other Hne. unfold canEdit, hasAccess. simpl.
      by destruct (String.eqb_spec (ReqUser.id user) other); [congruence|].
  - intros title nodes -> -> Htitle Hname Hnodes Hlinks Hfresh.
    rewrite bool_decide_eq_true_2 by done.
    assert (MindMap.valid (new_mindmap user title nodes body now) = true)
      as ->; [|done].
    unfold MindMap.valid, new_mindmap.
    cbn [MindMap.title MindMap.nodes MindMap.links MindMap.comments].
    rewrite eqb_empty_false, Hlinks by done.
    rewrite map_to_list_empty. rewrite !andb_true_r. simpl.
    apply forallb_forall. intros n Hn. apply list_elem_of_In in Hn.
    apply list_elem_of_fmap in Hn as (node & -> & Hnode).
    rewrite Forall_forall in Hnodes.
    destruct (Hnodes node Hnode) as (Hid & Htext & Hcolor).
    unfold Node.valid. simpl. by rewrite !eqb_empty_false.
Qed.

(** X11. The serverless API stores the nodes of a request as they come,
    and the nodes that the editor saves carry no [createdBy]: whatever the
    editor holds, the update that [saveMindMap] requests is refused by the
    serverless PUT with a 500, and nothing is stored, even for a user who
    may update the mind map. *)
Theorem serverless_put_refuses_editor st user id mindmap meta c body now :
  Server.db st !! id = Some mindmap →
  canEdit (ReqUser.id user) mindmap = true →
  Client.saveMindMap meta c = Some body →
  serverless_put st user id body now
  = (st, [], Response.mk 500 (json_error "Server error")).
Proof.
  intros Hdb Hedit Hsave. unfold Client.saveMindMap in Hsave.
  destruct (Nat.eqb_spec (length (Editor.nodes c)) 0) as [|Hlen]; [done|].
  injection Hsave as <-. unfold serverless_put. rewrite Hdb, Hedit. simpl.
  assert (MindMap.valid
            (serverless_assign mindmap (Client.mindMapData meta c) user now)
          = false) as ->; [|done].
  unfold MindMap.valid. simpl.
  destruct (Editor.nodes c) as [|n nodes]; [done|]. simpl.
  unfold Node.valid at 1. simpl.
  by rewrite !andb_false_r, !andb_false_l, ?andb_false_r.
Qed.

End Sharing.

(** ** Updates of different fields *)

Section Fields.

Implicit Types (st : Server.t) (m : MindMap.t) (n : Node.t)
  (u ua ub : Updates.t) (l : list Node.t).

Lemma findIndex_lookup {A} (p : A → bool) (l : list A) i :
  Js.findIndex p l = Some i → ∃ a, l !! i = Some a ∧ p a = true.
Proof.
  revert i. induction l as [|a l IH]; intros i; simpl; [done|].
  destruct (p a) eqn:Hp.
  - intros [= <-]. by exists a.
  - destruct (Js.findIndex p l) as [j|]; simpl; [|done].
    intros [= <-]. by apply IH.
Qed.

Lemma findIndex_alter {A} (p : A → bool) (f : A → A) i (l : list A) :
  (∀ a, p (f a) = p a) →
  Js.findIndex p (alter f i l) = Js.findIndex p l.
Proof.
  intros Hp. revert i. induction l as [|a l IH]; intros [|i]; simpl;
    try done.
  - by rewrite Hp.
  - destruct (p a); [done|]. f_equal. apply IH.
Qed.

Lemma forallb_alter {A} (q : A → bool) (f : A → A) i (l : list A) a :
  forallb q l = true → l !! i = Some a →
  forallb q (alter f i l) = q (f a).
Proof.
  revert i. induction l as [|b l IH]; intros [|i]; simpl; try done.
  - intros [_ ->]%andb_true_iff [= ->]. apply andb_true_r.
  - intros [-> Hl]%andb_true_iff Hi. simpl. by apply IH.
Qed.

Lemma alter_alter_comm {A} (f g : A → A) i (l : list A) :
  (∀ a, f (g a) = g (f a)) →
  alter f i (alter g i l) = alter g i (alter f i l).
Proof.
  intros Hfg. revert i. induction l as [|a l IH]; intros [|i]; simpl;
    try done.
  - by rewrite Hfg.
  - f_equal. apply IH.
Qed.

Lemma default_comm {A} (x : A) (a b : option A) :
  negb (bool_decide (is_Some a) && bool_decide (is_Some b)) = true →
  default (default x a) b = default (default x b) a.
Proof. destruct a, b; simpl; try done. Qed.

(** [Object.assign] of two updates with no common key, in either order. *)
Lemma assign_comm n ua ub :
  disjoint ua ub = true →
  Updates.assign (Updates.assign n ua) ub
  = Updates.assign (Updates.assign n ub) ua.
Proof.
  unfold disjoint. intros H.
  repeat (apply andb_true_iff in H as [H ?]).
  unfold Updates.assign. simpl. f_equal; by apply default_comm.
Qed.

(** A second update is valid on the updated node exactly when it is valid
    on the node itself. *)
Lemma valid_assign_twice n ua ub :
  Node.valid n = true → Node.valid (Updates.assign n ua) = true →
  Node.valid (Updates.assign (Updates.assign n ua) ub)
  = Node.valid (Updates.assign n ub).
Proof.
  unfold Node.valid, Updates.assign. simpl. intros Hn Ha.
  repeat (apply andb_true_iff in Hn as [Hn ?]).
  repeat (apply andb_true_iff in Ha as [Ha ?]).
  destruct (Updates.id ub), (Updates.text ub), (Updates.color ub),
    (Updates.createdBy ub); simpl in *;
    repeat match goal with
           | H : negb _ = true |- _ => rewrite H; clear H
           end; done.
Qed.

Lemma valid_assign_node m i n u now userId :
  MindMap.valid m = true → MindMap.nodes m !! i = Some n →
  MindMap.valid (assign_node m i u now userId)
  = Node.valid (Updates.assign n u).
Proof.
  unfold MindMap.valid. intros Hvalid Hi.
  repeat (apply andb_true_iff in Hvalid as [Hvalid ?]). simpl.
  rewrite (forallb_alter _ _ _ _ n) by done.
  repeat match goal with H : _ = true |- _ => rewrite H; clear H end.
  by rewrite !andb_true_r.
Qed.

Lemma node_valid_lookup m i n :
  MindMap.valid m = true → MindMap.nodes m !! i = Some n →
  Node.valid n = true.
Proof.
  unfold MindMap.valid. intros Hvalid Hi.
  repeat (apply andb_true_iff in Hvalid as [Hvalid ?]).
  match goal with H : forallb Node.valid _ = true |- _ =>
    rewrite forallb_forall in H; apply H end.
  apply list_elem_of_In. by eapply list_elem_of_lookup_2.
Qed.

(** What [updated] gives for a node that is found. *)
Lemma updated_found m userId nodeId u now i n :
  MindMap.valid m = true →
  Js.findIndex (fun n => Node.id n =? nodeId) (MindMap.nodes m) = Some i →
  MindMap.nodes m !! i = Some n →
  updated m userId (nodeId, u, now)
  = if Node.valid (Updates.assign n u)
    then Some (assign_node m i u now userId) else None.
Proof.
  intros Hvalid Hfind Hi. unfold updated. rewrite Hfind.
  by rewrite (valid_assign_node m i n).
Qed.

(** The nodes after two updates of a node that set different fields do not
    depend on the order of the updates. *)
Lemma default_Some {A} (x y : A) : default x (Some y) = y.
Proof. reflexivity. Qed.

Lemma default_None {A} (x : A) : default x None = x.
Proof. reflexivity. Qed.

Lemma updated_comm m nodeId ua ub ida idb ta tb :
  MindMap.valid m = true →
  Updates.id ua = None → Updates.id ub = None →
  disjoint ua ub = true →
  let ma := default m (updated m ida (nodeId, ua, ta)) in
  let mb := default m (updated m idb (nodeId, ub, tb)) in
  MindMap.nodes (default ma (updated ma idb (nodeId, ub, tb)))
  = MindMap.nodes (default mb (updated mb ida (nodeId, ua, ta))).
Proof.
  intros Hvalid Hida Hidb Hdisj ma mb. subst ma mb.
  destruct (Js.findIndex (fun n => Node.id n =? nodeId) (MindMap.nodes m))
    as [i|] eqn:Hfind.
  2: { assert (∀ userId u now, updated m userId (nodeId, u, now) = None)
         as Hnone by (intros; unfold updated; by rewrite Hfind).
       by rewrite !Hnone. }
  destruct (findIndex_lookup _ _ _ Hfind) as (n & Hi & _).
  pose proof (node_valid_lookup m i n Hvalid Hi) as Hn.
  assert (∀ u now userId,
            Updates.id u = None →
            Node.valid (Updates.assign n u) = true →
            let m' := assign_node m i u now userId in
            MindMap.valid m' = true
            ∧ Js.findIndex (fun n => Node.id n =? nodeId) (MindMap.nodes m')
              = Some i
            ∧ MindMap.nodes m' !! i = Some (Updates.assign n u)) as Hstep.
  { intros u now userId Hid Hok m'. split_and!.
    - unfold m'. by rewrite (valid_assign_node m i n).
    - unfold m'. simpl. rewrite findIndex_alter; [done|].
      intros a. unfold Updates.assign. simpl. by rewrite Hid.
    - unfold m'. simpl. rewrite list_lookup_alter_eq. by rewrite Hi. }
  rewrite !(updated_found m _ nodeId _ _ i n) by done.
  destruct (Node.valid (Updates.assign n ua)) eqn:Hoka;
    destruct (Node.valid (Updates.assign n ub)) eqn:Hokb;
    rewrite ?default_Some, ?default_None.
  - destruct (Hstep ua ta ida Hida Hoka) as (Hva & Hfa & Hia).
    destruct (Hstep ub tb idb Hidb Hokb) as (Hvb & Hfb & Hib).
    rewrite (updated_found _ _ nodeId _ _ i _ Hva Hfa Hia).
    rewrite (updated_found _ _ nodeId _ _ i _ Hvb Hfb Hib).
    rewrite (valid_assign_twice n ua ub), Hokb by done.
    rewrite (valid_assign_twice n ub ua), Hoka by done.
    rewrite !default_Some. simpl.
    apply alter_alter_comm. intros a. by apply assign_comm.
  - destruct (Hstep ua ta ida Hida Hoka) as (Hva & Hfa & Hia).
    rewrite (updated_found _ _ nodeId _ _ i _ Hva Hfa Hia).
    rewrite (valid_assign_twice n ua ub), Hokb by done.
    by rewrite (updated_found m _ nodeId _ _ i n), Hoka.
  - destruct (Hstep ub tb idb Hidb Hokb) as (Hvb & Hfb & Hib).
    rewrite (updated_found _ _ nodeId _ _ i _ Hvb Hfb Hib).
    rewrite (valid_assign_twice n ub ua), Hoka by done.
    by rewrite (updated_found m _ nodeId _ _ i n), Hokb.
  - by rewrite !(updated_found m _ nodeId _ _ i n), Hoka, Hokb.
Qed.

(** The stored mind map after one [node_update]. *)
Lemma node_update_db st sid socket current m data now :
  Server.sockets st !! sid = Some socket →
  Js.truthy (Socket.currentMindmap socket) = Some current →
  Server.db st !! current = Some m →
  Server.db (node_update st sid data now).1 !! current
  = Some (default m (updated m (Socket.userId socket) (data, now))).
Proof.
  intros Hsock Hcur Hdb. destruct data as [nodeId u].
  unfold node_update, updated. rewrite Hsock, Hcur, Hdb.
  destruct (Js.findIndex _ _); [|done].
  destruct (MindMap.valid _); [|done]. server_simpl.
  by rewrite lookup_insert_eq.
Qed.

(** X12. Two [node_update] events for the same node that set different
    fields and leave the id alone, sent by two sockets that are in the room
    of a valid mind map, leave the same nodes in the collection whichever
    is handled first: each field keeps the value of the update that set it,
    and an update that the schema refuses is refused in either order. *)
Theorem field_updates_commute st a b sa sb current m nodeId ua ub ta tb :
  Server.sockets st !! a = Some sa →
  Server.sockets st !! b = Some sb →
  Js.truthy (Socket.currentMindmap sa) = Some current →
  Js.truthy (Socket.currentMindmap sb) = Some current →
  Server.db st !! current = Some m →
  MindMap.valid m = true →
  Updates.id ua = None → Updates.id ub = None →
  disjoint ua ub = true →
  let a_then_b :=
    (node_update (node_update st a (nodeId, ua) ta).1 b (nodeId, ub) tb).1 in
  let b_then_a :=
    (node_update (node_update st b (nodeId, ub) tb).1 a (nodeId, ua) ta).1 in
  MindMap.nodes <$> Server.db a_then_b !! current
  = MindMap.nodes <$> Server.db b_then_a !! current.
Proof.
  intros Ha Hb Hca Hcb Hdb Hvalid Hida Hidb Hdisj a_then_b b_then_a.
  subst a_then_b b_then_a.
  destruct (node_update_frame st a (nodeId, ua) ta) as [Hsa _].
  destruct (node_update_frame st b (nodeId, ub) tb) as [Hsb _].
  pose proof (node_update_db st a sa current m (nodeId, ua) ta Ha Hca Hdb)
    as Hda.
  pose proof (node_update_db st b sb current m (nodeId, ub) tb Hb Hcb Hdb)
    as Hdb'.
  rewrite <- Hsa in Hb. rewrite <- Hsb in Ha.
  rewrite (node_update_db _ b sb current _ (nodeId, ub) tb Hb Hcb Hda).
  rewrite (node_update_db _ a sa current _ (nodeId, ua) ta Ha Hca Hdb').
  simpl. f_equal. by apply updated_comm.
Qed.

End Fields.

(** ** Trimmed text: titles and comments *)

Section Trimmed.

Implicit Types (s t : string) (st : Server.t).

Lemma append_cons a s1 s2 :
  (String a s1 ++ s2)%string = String a (s1 ++ s2)%string.
Proof. reflexivity. Qed.

Lemma append_nil_l s : ("" ++ s)%string = s.
Proof. reflexivity. Qed.

Lemma append_assoc s1 s2 s3 :
  ((s1 ++ s2) ++ s3)%string = (s1 ++ (s2 ++ s3))%string.
Proof.
  induction s1 as [|a s1 IH]; [done|]. by rewrite !append_cons, IH.
Qed.

Lemma append_nil_r s : (s ++ "")%string = s.
Proof. induction s as [|a s IH]; [done|]. by rewrite append_cons, IH. Qed.

Lemma rev_app_spec s1 s2 :
  String.rev_app s1 s2 = (String.rev s1 ++ s2)%string.
Proof.
  unfold String.rev. revert s2.
  induction s1 as [|a s1 IH]; intros s2; simpl; [done|].
  by rewrite IH, (IH (String a "")), append_assoc.
Qed.

Lemma rev_cons a s :
  String.rev (String a s) = (String.rev s ++ String a "")%string.
Proof. unfold String.rev at 1. simpl. apply rev_app_spec. Qed.

Lemma rev_append s1 s2 :
  String.rev (s1 ++ s2) = (String.rev s2 ++ String.rev s1)%string.
Proof.
  induction s1 as [|a s1 IH]; [by rewrite append_nil_r|].
  by rewrite append_cons, !rev_cons, IH, append_assoc.
Qed.

Lemma rev_involutive s : String.rev (String.rev s) = s.
Proof.
  induction s as [|a s IH]; [done|]. by rewrite rev_cons, rev_append, IH.
Qed.

(** A string that does not begin with a white space. *)
Let clean t : Prop :=
  match t with
  | String c _ => Js.is_space c = false
  | EmptyString => True
  end.

Lemma trimStart_clean s : clean (Js.trimStart s).
Proof.
  induction s as [|c s IH]; simpl; [done|].
  by destruct (Js.is_space c) eqn:Hc.
Qed.

Lemma trimStart_of_clean t : clean t → Js.trimStart t = t.
Proof. destruct t as [|c t]; simpl; [done|]. by intros ->. Qed.

Lemma trimStart_split s : ∃ sp, s = (sp ++ Js.trimStart s)%string.
Proof.
  induction s as [|c s [sp IH]]; simpl; [by exists ""|].
  destruct (Js.is_space c).
  - exists (String c sp). by rewrite append_cons, <- IH.
  - by exists "".
Qed.

Lemma trimEnd_split t : ∃ sp, t = (Js.trimEnd t ++ sp)%string.
Proof.
  destruct (trimStart_split (String.rev t)) as [sp Hsp].
  exists (String.rev sp). unfold Js.trimEnd.
  by rewrite <- rev_append, <- Hsp, rev_involutive.
Qed.

Lemma trimEnd_clean t : clean t → clean (Js.trimEnd t).
Proof.
  destruct (trimEnd_split t) as [sp Hsp]. intros Hclean.
  rewrite Hsp in Hclean. destruct (Js.trimEnd t); [done|].
  by rewrite append_cons in Hclean.
Qed.

(** What [trim] returns has no white space left at either end, so that
    trimming it again changes nothing. *)
Lemma trim_trim s : Js.trim (Js.trim s) = Js.trim s.
Proof.
  unfold Js.trim.
  rewrite (trimStart_of_clean (Js.trimEnd (Js.trimStart s)))
    by apply trimEnd_clean, trimStart_clean.
  unfold Js.trimEnd. rewrite rev_involutive.
  by rewrite (trimStart_of_clean (Js.trimStart _)) by apply trimStart_clean.
Qed.

Lemma truthy_nonempty s : s ≠ "" → Js.truthy (Some s) = Some s.
Proof. by destruct s. Qed.

(** X13. The dashboard sends no request for a blank title. The request it
    sends for any other title, when the user may update the mind map, is
    accepted: the mind map is stored with the trimmed title, the time and
    the user of the change, and everything else as it was (description,
    nodes, links, comments, collaborators, privacy, tags), and it is sent
    to the room. *)
Theorem saveTitle_renames st user id mindmap editingTitle now :
  (Js.trim editingTitle = "" → saveTitle editingTitle = None)
  ∧ ∀ body,
      saveTitle editingTitle = Some body →
      Server.db st !! id = Some mindmap →
      canEdit (ReqUser.id user) mindmap = true →
      MindMap.valid mindmap = true →
      let renamed :=
        MindMap.mk (Js.trim editingTitle) (MindMap.description mindmap)
          (MindMap.nodes mindmap) (MindMap.links mindmap)
          (MindMap.comments mindmap) (MindMap.owner mindmap)
          (MindMap.collaborators mindmap) (MindMap.isPublic mindmap)
          (MindMap.tags mindmap) (MindMap.createdAt mindmap) now
          (Some (ReqUser.id user)) in
      put_mindmap st user id body now
      = (Server.with_db (insert id renamed) st,
         Saved id renamed
         :: io_emit st (room_of id) (mindmap_updated renamed),
         Response.mk 200 (json_mindmap renamed)).
Proof.
  split; [unfold saveTitle; by intros ->|].
  intros body Hbody Hdb Hedit Hvalid renamed. unfold saveTitle in Hbody.
  destruct (String.eqb_spec (Js.trim editingTitle) "") as [|Hne]; [done|].
  injection Hbody as <-. unfold put_mindmap. rewrite Hdb, Hedit. simpl.
  assert (put_assign mindmap
            (PutBody.mk (Some (Js.trim editingTitle)) None None None None
                        None) user now = renamed) as ->.
  { unfold put_assign. cbn -[Js.truthy Js.trim].
    by rewrite truthy_nonempty, trim_trim. }
  assert (MindMap.valid renamed = true) as ->; [|done].
  unfold MindMap.valid in *. subst renamed.
  cbn [MindMap.title MindMap.nodes MindMap.links MindMap.comments].
  rewrite !andb_true_iff in Hvalid. destruct Hvalid as [[[_ Hn] Hl] Hc].
  by rewrite eqb_empty_false, Hn, Hl, Hc.
Qed.



End Trimmed.

(** ** The editors of a room *)

Section Editors.

Implicit Types (st : Server.t) (sid t : nat) (socket : Socket.t)
  (prev : list Editor.node) (v : Client.view) (c : Editor.t)
  (u w : Presence.t) (online : list Presence.t).

Lemma findIndex_unknown nodeId (l : list Node.t) :
  nodeId ∉ Node.id <$> l →
  Js.findIndex (fun n => Node.id n =? nodeId) l = None.
Proof.
  induction l as [|n l IH]; [done|]. csimpl. intros Hnotin.
  apply not_elem_of_cons in Hnotin as [Hne Hnotin].
  destruct (String.eqb_spec (Node.id n) nodeId); [congruence|].
  by rewrite IH.
Qed.

Lemma handleNodeUpdated_unknown me nodeId updates updatedBy prev :
  nodeId ∉ Editor.id <$> prev →
  Client.handleNodeUpdated me nodeId updates updatedBy prev = prev.
Proof.
  intros Hnotin. unfold Client.handleNodeUpdated.
  destruct (negb _); [|done].
  induction prev as [|n prev IH]; [done|]. csimpl in *.
  apply not_elem_of_cons in Hnotin as [Hne Hnotin].
  destruct (String.eqb_spec (Editor.id n) nodeId); [congruence|].
  by rewrite IH.
Qed.

(** X15. What a [node_updated] event does to the nodes of an editor: the
    list keeps its length, so the event never adds or removes a node; an
    event of the user of the editor, or for a node that the editor does not
    have, changes nothing; updates that carry no id leave the ids as they
    are; and an event of another user replaces every node that has the id
    by the node with the updates spread over it. *)
Theorem node_updated_in_editor me nodeId updates updatedBy prev :
  let next := Client.handleNodeUpdated me nodeId updates updatedBy prev in
  length next = length prev
  ∧ (updatedBy = me → next = prev)
  ∧ (nodeId ∉ Editor.id <$> prev → next = prev)
  ∧ (Updates.id updates = None → Editor.id <$> next = Editor.id <$> prev)
  ∧ (updatedBy ≠ me →
     ∀ i node, prev !! i = Some node →
       next !! i
       = Some (if Editor.id node =? nodeId
               then Client.spread node updates else node)).
Proof.
  intros next. split_and!.
  - subst next. unfold Client.handleNodeUpdated.
    destruct (negb _); [apply length_fmap|done].
  - intros ->. subst next. unfold Client.handleNodeUpdated.
    by rewrite String.eqb_refl.
  - apply handleNodeUpdated_unknown.
  - intros Hid. subst next. unfold Client.handleNodeUpdated.
    destruct (negb _); [|done]. rewrite <- list_fmap_compose.
    apply list_fmap_ext. intros i n _. simpl.
    destruct (Editor.id n =? nodeId); [|done].
    unfold Client.spread. simpl. by rewrite Hid.
  - intros Hne i node Hi. subst next. unfold Client.handleNodeUpdated.
    destruct (String.eqb_spec updatedBy me); [done|]. simpl.
    by rewrite list_lookup_fmap, Hi.
Qed.

(** X16. An edit of the text converges: when an editor saves the text of
    its selected node and its socket is in a room, the editor of any other
    socket of the room that showed the same nodes shows, after the event
    that the server relays, the nodes of the sender, provided that it is
    the editor of another user. The editor of the same user on another
    socket ignores the event and keeps the old text. *)
Theorem edit_reaches_other_editors st sid socket current c selected editText
    now t me v :
  Server.sockets st !! sid = Some socket →
  Js.truthy (Socket.currentMindmap socket) = Some current →
  Editor.selectedNode c = Some selected →
  t ∈ members st (room_of current) → t ≠ sid →
  Client.nodes v = Editor.nodes c →
  ∃ request,
    (Client.saveEdit editText c).2 = Some request
    ∧ let out := (node_update st sid request now).2 in
      Client.nodes (receive me (delivered t out) v)
      = if Socket.username socket =? me then Editor.nodes c
        else Editor.nodes (Client.saveEdit editText c).1.
Proof.
  intros Hsock Hcur Hsel Hin Hne Hv. unfold Client.saveEdit.
  rewrite Hsel. eexists. split; [done|]. cbn [fst snd].
  destruct (node_update_relayed_once st sid socket current
              (Editor.id selected)
              (Updates.mk None None None (Some editText) None None None None
                          None) now Hsock Hcur) as [Hothers _].
  rewrite (Hothers t Hin Hne).
  unfold receive. simpl. unfold Client.handleNodeUpdated. rewrite Hv.
  destruct (Socket.username socket =? me); [done|]. simpl.
  apply list_fmap_ext. intros i n _.
  by destruct (Editor.id n =? Editor.id selected).
Qed.

(** X17. A node added in one editor stays there. The editor gets one more
    node, a link to it from the selected node, and selects it; the
    [node_update] that it sends is relayed, but when the id of the new node
    is neither among the stored nodes nor among those of a receiving
    editor, the server writes nothing and the receiving editor shows what
    it showed before. *)
Theorem added_node_stays_local st sid socket current mindmap c selected now x
    y color when t me v :
  Server.sockets st !! sid = Some socket →
  Js.truthy (Socket.currentMindmap socket) = Some current →
  Server.db st !! current = Some mindmap →
  Editor.selectedNode c = Some selected →
  "node-" ++ pretty now ∉ MindMap.ids mindmap →
  "node-" ++ pretty now ∉ Editor.id <$> Client.nodes v →
  t ∈ members st (room_of current) → t ≠ sid →
  ∃ newNode request,
    addNode now x y color c
    = (Editor.mk (Editor.nodes c ++ [newNode])%list
                 (Editor.links c
                  ++ [Editor.mk_link (Editor.by_id (Editor.id selected))
                                     (Editor.by_id (Editor.id newNode))])%list
                 (Some newNode),
       Some request)
    ∧ Editor.id newNode = "node-" ++ pretty now
    ∧ let '(st', out) := node_update st sid request when in
      st' = st
      ∧ saves out = []
      ∧ delivered t out ≠ []
      ∧ receive me (delivered t out) v = v.
Proof.
  intros Hsock Hcur Hdb Hsel Hstored Hshown Hin Hne. unfold addNode.
  rewrite Hsel. eexists _, _. split_and!; [done|done|].
  cbn [Editor.id Editor.x Editor.y Editor.text Editor.level Editor.color].
  unfold node_update. rewrite Hsock, Hcur, Hdb.
  rewrite findIndex_unknown by done.
  split_and!; [done|apply saves_to_emit| |];
    rewrite delivered_to_emit_other by done; [done|].
  unfold receive. simpl. rewrite handleNodeUpdated_unknown by done.
  by destruct v.
Qed.

Lemma filter_left_left u online :
  filter (fun w => Presence.id w = Presence.id u)
         (filter (fun w => Presence.id w ≠ Presence.id u) online) = [].
Proof.
  induction online as [|w online IH]; [done|].
  rewrite (filter_cons (fun w => Presence.id w ≠ Presence.id u)).
  destruct (decide (Presence.id w ≠ Presence.id u)) as [Hne|]; [|done].
  rewrite filter_cons. by destruct (decide (Presence.id w = Presence.id u)).
Qed.

(** X18. The list of users on line of an editor holds a user once per id.
    After [user_joined] the user is the last of the list and its only entry
    with that id; after [user_left] no entry with the id is left, however
    many there were; the entries of the other users stay, in their order;
    a list without two entries of one id stays so; and a user who joins
    and leaves is gone, as if only the leaving had been announced. *)
Theorem users_on_line_by_id u online :
  let joined := Client.handleUserJoined u online in
  let left := Client.handleUserLeft u online in
  last joined = Some u
  ∧ filter (fun w => Presence.id w = Presence.id u) joined = [u]
  ∧ filter (fun w => Presence.id w = Presence.id u) left = []
  ∧ filter (fun w => Presence.id w ≠ Presence.id u) joined
    = filter (fun w => Presence.id w ≠ Presence.id u) online
  ∧ Client.handleUserLeft u joined = left
  ∧ (NoDup (Presence.id <$> online) → NoDup (Presence.id <$> joined)).
Proof.
  intros joined left. subst joined left.
  unfold Client.handleUserJoined, Client.handleUserLeft.
  assert (filter (fun w => Presence.id w ≠ Presence.id u)
            (filter (fun w => Presence.id w ≠ Presence.id u) online ++ [u])%list
          = filter (fun w => Presence.id w ≠ Presence.id u) online) as Hleft.
  { rewrite filter_app, list_filter_filter, filter_cons, filter_nil.
    destruct (decide (Presence.id u ≠ Presence.id u)); [done|].
    rewrite app_nil_r. apply list_filter_iff. tauto. }
  split_and!.
  - apply last_snoc.
  - rewrite filter_app, filter_left_left, filter_cons, filter_nil.
    by destruct (decide (Presence.id u = Presence.id u)).
  - apply filter_left_left.
  - done.
  - done.
  - intros Hnodup. rewrite fmap_app. apply NoDup_app. split_and!.
    + eapply sublist_NoDup; [done|]. apply fmap_sublist, sublist_filter.
    + intros i Hi Hu. apply list_elem_of_fmap in Hi as (w & -> & Hw).
      apply list_elem_of_filter in Hw as [Hw _].
      apply list_elem_of_singleton in Hu. done.
    + apply NoDup_singleton.
Qed.

(** X19. [deleteNode] for a selected node other than the root: nothing is
    selected afterwards, no node with the id is left and the other nodes
    stay; no link that names the node by its id at either end is left; but
    a link whose two ends the simulation has replaced by node objects
    stays, also when one of them is the deleted node, and [cleanLinks]
    then writes it with the id of the deleted node. *)
Theorem deleteNode_links c selected :
  Editor.selectedNode c = Some selected →
  Editor.id selected ≠ "root" →
  let c' := Editor.deleteNode c in
  Editor.selectedNode c' = None
  ∧ (Editor.id selected ∉ Editor.id <$> Editor.nodes c')
  ∧ (∀ n, n ∈ Editor.nodes c → Editor.id n ≠ Editor.id selected →
          n ∈ Editor.nodes c')
  ∧ (∀ l, l ∈ Editor.links c' →
          Editor.source l ≠ Editor.by_id (Editor.id selected)
          ∧ Editor.target l ≠ Editor.by_id (Editor.id selected))
  ∧ (∀ l n m, l ∈ Editor.links c →
              Editor.source l = Editor.by_node n →
              Editor.target l = Editor.by_node m →
              l ∈ Editor.links c'
              ∧ (Link.mk (Editor.id n) (Editor.id m))
                ∈ Client.cleanLinks (Editor.links c')).
Proof.
  intros Hsel Hroot c'. subst c'. unfold Editor.deleteNode. rewrite Hsel.
  destruct (String.eqb_spec (Editor.id selected) "root"); [done|].
  cbn [Editor.selectedNode Editor.nodes Editor.links]. split_and!.
  - done.
  - intros Hin. apply list_elem_of_fmap in Hin as (n' & Hid & Hn').
    apply list_elem_of_filter in Hn' as [Hn' _]. congruence.
  - intros n' Hin Hne. by apply list_elem_of_filter.
  - intros l Hl. apply list_elem_of_filter in Hl as [[Hs Ht] _].
    split; intros Heq; rewrite Heq in *; simpl in *;
      by rewrite String.eqb_refl in *.
  - intros l n' m Hl Hs Ht.
    assert (l ∈ filter
              (fun l => Editor.differs (Editor.source l) (Editor.id selected)
                        = true
                        ∧ Editor.differs (Editor.target l)
                                         (Editor.id selected) = true)
              (Editor.links c)) as Hkept.
    { apply list_elem_of_filter. by rewrite Hs, Ht. }
    split; [done|]. unfold Client.cleanLinks.
    apply list_elem_of_fmap. exists l. by rewrite Hs, Ht.
Qed.

(** X20. An editor that has no [mindMapId], which is the editor of a mind
    map that was never stored, is never saved by the timer: however the
    calls of [scheduleAutoSave] are spaced, no timeout calls
    [saveMindMap]. *)
Theorem unsaved_never_autosaved mindMapId now gaps a :
  Js.truthy mindMapId = None →
  Editor.calls (settle mindMapId now gaps a) = Editor.calls a.
Proof.
  intros Hid. unfold settle.
  assert (∀ (due : N) a,
            Editor.calls (Editor.tick mindMapId due a) = Editor.calls a)
    as Htick.
  { intros due a'. unfold Editor.tick. destruct (Editor.timer a'); [|done].
    destruct (_ <=? _)%N; [|done]. simpl. rewrite Hid.
    rewrite bool_decide_eq_false_2 by (by intros [? ?]).
    by rewrite andb_false_r. }
  assert (∀ gaps now a,
            Editor.calls (Editor.burst mindMapId now gaps a).2
            = Editor.calls a) as Hburst.
  { clear now gaps a. induction gaps as [|g gaps IH]; intros now a; [done|].
    simpl. rewrite IH. simpl. apply Htick. }
  specialize (Hburst gaps now (Editor.scheduleAutoSave now a)).
  destruct (Editor.burst _ _ _ _) as [last a']. simpl in Hburst.
  by rewrite Htick, Hburst.
Qed.

End Editors.

(** ** The scenario, checked *)

Module Checks.
Import Scenario.

(** The invariants hold after the three connections. *)
Lemma start_wf : heap_wf start ∧ db_wf start.
Proof.
  apply run_wf; [apply heap_wf_init|]. intros k m Hk. simpl in Hk.
  apply lookup_singleton_Some in Hk as [_ <-].
  split; [reflexivity|constructor].
Qed.

(** bob joins alice: he is sent alice and himself. *)
Lemma join_mindmap_presence_witness :
  delivered 2 (join_mindmap alice_in 2 "d1").2
  = [active_users [Socket.presence alice; Socket.presence bob]]
  ∧ ∀ t, t ∈ members alice_in (room_of "d1") → t ≠ 2%nat →
         delivered t (join_mindmap alice_in 2 "d1").2
         = [user_joined (Socket.presence bob)].
Proof.
  apply (join_mindmap_presence alice_in 2 bob "d1" doc).
  - apply join_mindmap_wf, start_wf.
  - reflexivity.
  - reflexivity.
  - reflexivity.
Defined.

(** C2, the claim as written fails: with members alice and bob, carol is
    sent alice, bob and carol herself, not exactly alice and bob. *)
Lemma join_mindmap_lists_the_joiner :
  members both_in (room_of "d1") = {[1%nat; 2%nat]}
  ∧ Js.val <$> default [] (Server.activeUsers both_in !! "d1")
    = [Socket.presence alice; Socket.presence bob]
  ∧ delivered 3 (join_mindmap both_in 3 "d1").2
    ≠ [active_users [Socket.presence alice; Socket.presence bob]].
Proof. split_and!; [by vm_compute|by vm_compute|by vm_compute]. Qed.

(** C1, the defect. alice joins and disconnects, leaving nobody connected:
    the presence set of the document is still there with her entry, and
    bob, who joins next, is sent alice in his [active_users]. *)
Lemma departed_member_still_listed :
  let gone := (disconnect alice_in 1).1 in
  Server.sockets gone !! 1%nat = None
  ∧ members gone (room_of "d1") = ∅
  ∧ Js.val <$> default [] (Server.activeUsers gone !! "d1")
    = [Socket.presence alice]
  ∧ delivered 2 (join_mindmap gone 2 "d1").2
    = [active_users [Socket.presence alice; Socket.presence bob]].
Proof. split_and!; by vm_compute. Qed.

(** C3, the defect. carol is neither the owner nor a collaborator of the
    public document, so her permission is read, and the document update
    route answers her 403. Her [node_update] is relayed to alice, no error
    is sent back to her, and the renamed root is written to the
    collection. *)
Lemma reader_node_update_applied :
  let '(st', out) :=
    node_update with_carol 3 ("root", rename "Hacked") 5000 in
  effective_permission_spec "u-carol" doc = Some read
  ∧ Response.status (put_mindmap with_carol as_carol "d1" only_idea 5000).2
    = 403%nat
  ∧ delivered 1 out = [node_updated "root" (rename "Hacked") "carol"]
  ∧ delivered 3 out = []
  ∧ (fun w => (w.1, MindMap.texts w.2)) <$> saves out
    = [("d1", ["Hacked"])]
  ∧ MindMap.texts <$> Server.db st' !! "d1" = Some ["Hacked"].
Proof. by vm_compute. Qed.

(** C4, the claim as written fails: no node of the document has the id
    "ghost", yet carol's update of it is relayed to alice, and carol is
    sent no error. *)
Lemma unknown_node_still_relayed :
  let out := (node_update with_carol 3 ("ghost", rename "Boo") 5000).2 in
  ("ghost" ∉ MindMap.ids doc)
  ∧ ¬ (delivered 1 out = [] ∧ ∃ message, delivered 3 out = [error message]).
Proof.
  split.
  - by intros ?%list_elem_of_singleton.
  - vm_compute. by intros [? _].
Qed.

(** carol renames the root: alice, the other member, gets the event. *)
Lemma node_update_relayed_witness :
  (∀ t, t ∈ members with_carol (room_of "d1") → t ≠ 3%nat →
        delivered t (node_update with_carol 3 ("root", rename "Hi") 5000).2
        = [node_updated "root" (rename "Hi") "carol"])
  ∧ delivered 3 (node_update with_carol 3 ("root", rename "Hi") 5000).2 = [].
Proof.
  apply (node_update_relayed with_carol 3
           (Socket.mk "u-carol" "carol" (Some "d1")) "d1").
  - reflexivity.
  - reflexivity.
Defined.

(** alice has connected and joined nothing: her events are dropped. *)
Lemma events_outside_room_dropped_witness :
  node_update start 1 ("root", rename "Hi") 5000 = (start, [])
  ∧ cursor_move start 1 (10, 20)%Z = (start, []).
Proof.
  apply (events_outside_room_dropped start 1 alice).
  - reflexivity.
  - reflexivity.
Defined.

(** carol updates a node that the document does not have. *)
Lemma node_update_unknown_node_witness :
  let '(st', out) := node_update with_carol 3 ("ghost", rename "Boo") 5000 in
  st' = with_carol
  ∧ saves out = []
  ∧ delivered 3 out = []
  ∧ ∀ t, t ∈ members with_carol (room_of "d1") → t ≠ 3%nat →
         delivered t out = [node_updated "ghost" (rename "Boo") "carol"].
Proof.
  apply (node_update_unknown_node with_carol 3
           (Socket.mk "u-carol" "carol" (Some "d1")) "d1" doc).
  - reflexivity.
  - reflexivity.
  - reflexivity.
  - vm_compute. intros Hin. apply list_elem_of_In in Hin. simpl in Hin.
    destruct Hin as [Hin|[]]. discriminate Hin.
Defined.

(** carol, a read collaborator of the shared document, may neither update
    nor delete it, nor add a collaborator; she may comment. *)
Lemma access_gate_witness :
  effective_permission_spec "u-carol" shared = Some read
  ∧ hasAccess "u-carol" shared = true
  ∧ canEdit "u-carol" shared = false
  ∧ put_mindmap shared_server as_carol "d2" only_idea 6000
    = (shared_server, [], Response.mk 403 (json_error "Permission denied"))
  ∧ delete_mindmap shared_server as_carol "d2"
    = (shared_server, [],
       Response.mk 403 (json_error "Only owner can delete mind map"))
  ∧ add_collaborator shared_server as_carol "d2" "carol" (Some admin)
    = (shared_server, [],
       Response.mk 403 (json_error "Only owner can add collaborators"))
  ∧ Response.status
      (post_comment shared_server as_carol "d2" "root" (Some "Nice") 7000).2
    = 201%nat.
Proof.
  assert (NoDup (Collaborator.user <$> MindMap.collaborators shared))
    as Hnodup.
  { simpl. apply (bool_decide_unpack _). vm_compute. exact I. }
  assert (Server.db shared_server !! "d2" = Some shared) as Hdb
    by reflexivity.
  destruct (access_gate shared_server as_carol "d2" shared only_idea 6000
              "carol" (Some admin) "root" "Nice" Hnodup Hdb)
    as (_ & _ & _ & Hput & _ & Howner & _ & _ & _ & _ & Hcomment).
  split_and!.
  - reflexivity.
  - reflexivity.
  - reflexivity.
  - apply Hput. reflexivity.
  - apply Howner. vm_compute. discriminate.
  - apply Howner. vm_compute. discriminate.
  - apply Hcomment.
    + vm_compute. eexists. reflexivity.
    + vm_compute. discriminate.
    + vm_compute. reflexivity.
    + vm_compute. discriminate.
    + vm_compute. discriminate.
    + reflexivity.
Defined.

(** C8, the claim as written fails: carol's permission on the shared
    document is read, which is below write, yet the comment that she
    creates is accepted, stored and sent to the room. *)
Lemma reader_comment_accepted :
  let '(st', out, response) :=
    post_comment shared_server as_carol "d2" "root" (Some "Nice") 7000 in
  effective_permission_spec "u-carol" shared = Some read
  ∧ at_least_write_spec (Some read) = false
  ∧ Response.status response = 201%nat
  ∧ (fun m => Comment.text <$> default [] (MindMap.comments m !! "root"))
      <$> Server.db st' !! "d2"
    = Some ["Nice"].
Proof. by vm_compute. Qed.



(** Deleting the selected child, and renaming the root, keep the root. *)
Lemma root_kept_by_deleteNode_and_field_updates_witness :
  roots (Editor.id <$> Editor.nodes (Editor.deleteNode editing))
  = roots (Editor.id <$> Editor.nodes editing)
  ∧ MindMap.ids
      <$> Server.db
            (node_update with_carol 3 ("root", rename "Hi") 5000).1 !! "d1"
    = MindMap.ids <$> Server.db with_carol !! "d1".
Proof.
  apply (root_kept_by_deleteNode_and_field_updates editing with_carol 3
           "root" (rename "Hi") 5000 "d1").
  reflexivity.
Defined.


(** When the request resolves after the last call, the timeout that comes
    due saves nothing. *)
Lemma saved_since_last_mutation :
  Editor.within_quiet 0 Cases.typing_then_saved = true
  ∧ Editor.calls
      (Editor.tick (Some "d1") 20000
         (Editor.play (Some "d1") 5000 Cases.typing_then_saved
                      (Editor.scheduleAutoSave 5000 idle)).2) = [].
Proof. split; reflexivity. Qed.


(** C9, the claim as written fails: the owner replaces the nodes by a list
    without a root and the document is stored with no root; a [node_update]
    that carries an [id] renames the root away. *)
Lemma put_mindmap_drops_root :
  roots (MindMap.ids doc) = 1%nat
  ∧ Response.status (put_mindmap start as_alice "d1" only_idea 6000).2
    = 200%nat
  ∧ (roots ∘ MindMap.ids)
      <$> Server.db (put_mindmap start as_alice "d1" only_idea 6000).1.1
          !! "d1"
    = Some 0%nat
  ∧ (roots ∘ MindMap.ids)
      <$> Server.db
            (node_update alice_in 1
               ("root",
                Updates.mk (Some "trunk") None None None None None None None
                           None) 5000).1 !! "d1"
    = Some 0%nat.
Proof. split_and!; by vm_compute. Qed.

End Checks.

(** ** The further properties, at the scenario *)

Module MoreChecks.
Import Scenario Cases.

Lemma rooms_wf_boot : rooms_wf boot.
Proof.
  split.
  - intros room t Hin. unfold members in Hin. simpl in Hin.
    rewrite lookup_empty in Hin. simpl in Hin. set_solver.
  - intros sid socket d Hsock. simpl in Hsock.
    by rewrite lookup_empty in Hsock.
Qed.

Lemma handle_wf st r :
  heap_wf st ∧ rooms_wf st → heap_wf (handle st r) ∧ rooms_wf (handle st r).
Proof.
  intros [Hheap Hrooms].
  split; [by apply handle_heap_wf|by apply handle_rooms_wf].
Qed.

(** The invariants hold when alice and bob have joined. *)
Lemma both_in_wf : heap_wf both_in ∧ rooms_wf both_in.
Proof.
  apply (handle_wf alice_in (JoinMindmap 2 "d1")).
  apply (handle_wf start (JoinMindmap 1 "d1")).
  apply (handle_wf _ (Connect 3 "u-carol" "carol")).
  apply (handle_wf _ (Connect 2 "u-bob" "bob")).
  apply (handle_wf _ (Connect 1 "u-alice" "alice")).
  split; [apply heap_wf_init|apply rooms_wf_boot].
Qed.

Lemma bob_in_room : 2%nat ∈ members both_in (room_of "d1").
Proof. apply (bool_decide_unpack _). vm_compute. exact I. Qed.


(** dave asks to join the shared document, which is private. *)
Lemma join_mindmap_refused_witness :
  join_mindmap with_dave 4 "d2"
  = (with_dave, [Deliver 4 (error "Access denied")])
  ∧ delivered 4 (join_mindmap with_dave 4 "d2").2 = [error "Access denied"]
  ∧ ∀ t, t ≠ 4%nat → delivered t (join_mindmap with_dave 4 "d2").2 = [].
Proof.
  apply (join_mindmap_refused with_dave 4 dave "d2" shared).
  - reflexivity.
  - reflexivity.
  - reflexivity.
Defined.

(** alice moves her cursor: bob, the other member, sees it. *)
Lemma cursor_move_relayed_witness :
  let '(st', out) := cursor_move both_in 1 (10, 20)%Z in
  st' = both_in
  ∧ saves out = []
  ∧ delivered 1 out = []
  ∧ ∀ t, t ∈ members both_in (room_of "d1") → t ≠ 1%nat →
         delivered t out = [cursor_moved "u-alice" "alice" 10 20].
Proof.
  apply (cursor_move_relayed both_in 1 alice_joined "d1" 10 20).
  - reflexivity.
  - reflexivity.
Defined.

(** alice disconnects. *)
Lemma disconnect_leaves_witness :
  let st' := (disconnect both_in 1).1 in
  Server.sockets st' !! 1%nat = None
  ∧ Server.db st' = Server.db both_in
  ∧ (∀ room, 1%nat ∉ members st' room)
  ∧ ∀ room t e,
      delivered 1 (to_emit st' t room e) = []
      ∧ delivered 1 (io_emit st' room e) = [].
Proof.
  apply (disconnect_leaves both_in 1 alice_joined).
  reflexivity.
Defined.

(** bob is told that alice has left. *)
Lemma disconnect_announced_witness :
  delivered 1 (disconnect both_in 1).2 = []
  ∧ ∀ t, t ∈ members both_in (room_of "d1") → t ≠ 1%nat →
         delivered t (disconnect both_in 1).2
         = [user_left (Socket.presence alice_joined)].
Proof.
  apply (disconnect_announced both_in 1 alice_joined "d1").
  - apply both_in_wf.
  - apply both_in_wf.
  - reflexivity.
  - reflexivity.
Defined.

(** The invariants hold after the session. *)
Lemma run_rooms_wf_witness :
  heap_wf (run boot session) ∧ rooms_wf (run boot session).
Proof.
  apply (run_rooms_wf session boot).
  - apply heap_wf_init.
  - apply rooms_wf_boot.
Defined.

(** After a comment of carol the document extends the one of the start. *)
Lemma run_keeps_witness :
  ∃ m, Server.db start !! "d1" = Some m
       ∧ extends m (push_comment doc "root" nice 7000).
Proof.
  apply (run_keeps [PostComment as_carol "d1" "root" (Some " Nice  ") 7000]
                   start "d1").
  vm_compute. reflexivity.
Defined.

(** alice deletes her document: nobody can read it any more. *)
Lemma deleted_is_gone_witness :
  Response.status (delete_mindmap start as_alice "d1").2 = 200%nat
  ∧ ∀ u, Response.status
           (get_mindmap (delete_mindmap start as_alice "d1").1.1 u "d1")
         = 404%nat.
Proof.
  assert (Server.db start !! "d1" = Some doc) as Hdb by reflexivity.
  assert (MindMap.owner doc = ReqUser.id as_alice) as Howner by reflexivity.
  destruct (deleted_is_gone start as_alice "d1" doc Hdb Howner)
    as (Hdeleted & _ & Hget & _).
  split; [exact Hdeleted|exact Hget].
Defined.

(** alice saves her editor and loads the mind map again. *)
Lemma save_load_roundtrip_witness :
  let body := Client.mindMapData plan editing in
  let st' := (put_mindmap start as_alice "d1" body 6000).1.1 in
  ∃ stored,
    get_mindmap st' as_alice "d1" = Response.mk 200 (json_mindmap stored)
    ∧ Client.loadNodes stored = Editor.nodes editing
    ∧ Client.loadLinks stored
      = (fun l =>
           Editor.mk_link (Editor.by_id (Client.end_id (Editor.source l)))
                          (Editor.by_id (Client.end_id (Editor.target l))))
          <$> Editor.links editing
    ∧ Client.loadPrivate stored = Client.isPrivate plan.
Proof.
  apply (save_load_roundtrip start as_alice "d1" doc plan editing
           (Client.mindMapData plan editing) 6000).
  - reflexivity.
  - reflexivity.
  - vm_compute. reflexivity.
Defined.

(** alice lets bob write. *)
Lemma add_collaborator_grants_witness :
  Response.status
    (add_collaborator start as_alice "d1" "bob" (Some write)).2 = 200%nat.
Proof.
  assert (Server.db start !! "d1" = Some doc) as Hdb by reflexivity.
  assert (MindMap.owner doc = ReqUser.id as_alice) as Howner by reflexivity.
  assert (Server.users start !! "bob" = Some "u-bob") as Huser
    by reflexivity.
  assert (find (fun c => Collaborator.user c =? "u-bob")
               (MindMap.collaborators doc) = None) as Hfind by reflexivity.
  assert (MindMap.valid doc = true) as Hvalid by (vm_compute; reflexivity).
  pose proof (add_collaborator_grants start as_alice "d1" doc "bob" "u-bob"
                (Some write) Hdb Howner Huser Hfind Hvalid) as Hgrants.
  destruct (add_collaborator start as_alice "d1" "bob" (Some write))
    as [[st' out] response].
  exact (proj1 Hgrants).
Defined.

(** alice creates a mind map with one node that names no creator. *)
Lemma post_mindmap_creates_witness :
  Response.status (post_mindmap start as_alice fresh "d7" 6000).2 = 201%nat
  ∧ Server.db start !! "d7" = None
  ∧ ∃ mindmap,
      Server.db (post_mindmap start as_alice fresh "d7" 6000).1.1 !! "d7"
      = Some mindmap
      ∧ MindMap.owner mindmap = "u-alice"
      ∧ MindMap.ids mindmap = ["node-1"]
      ∧ Forall (fun n => Node.createdBy n = "alice") (MindMap.nodes mindmap).
Proof.
  destruct (post_mindmap_creates start as_alice fresh "d7" 6000)
    as (_ & Hcreated & Hcreates).
  assert (Response.status (post_mindmap start as_alice fresh "d7" 6000).2
          = 201%nat) as Hstatus.
  { apply (Hcreates " Ideas " [idea]).
    - reflexivity.
    - reflexivity.
    - vm_compute. discriminate.
    - vm_compute. discriminate.
    - repeat constructor; vm_compute; discriminate.
    - reflexivity.
    - reflexivity. }
  destruct (Hcreated Hstatus)
    as (Hfree & _ & mindmap & Hstored & Howner & _ & _ & Hids & Hby & _).
  split_and!; [exact Hstatus|exact Hfree|].
  exists mindmap. split_and!; [exact Hstored|exact Howner| |exact Hby].
  simpl in Hids. by injection Hids.
Defined.

(** The serverless PUT refuses what alice's editor saves. *)
Lemma serverless_put_refuses_editor_witness :
  serverless_put start as_alice "d1" (Client.mindMapData plan editing) 6000
  = (start, [], Response.mk 500 (json_error "Server error")).
Proof.
  apply (serverless_put_refuses_editor start as_alice "d1" doc plan editing).
  - reflexivity.
  - reflexivity.
  - reflexivity.
Defined.

(** alice renames the root while bob recolours it. *)
Lemma field_updates_commute_witness :
  MindMap.nodes
    <$> Server.db
          (node_update
             (node_update both_in 1 ("root", rename "Hi") 5000).1
             2 ("root", recolour "#000000") 5100).1 !! "d1"
  = MindMap.nodes
      <$> Server.db
            (node_update
               (node_update both_in 2 ("root", recolour "#000000") 5100).1
               1 ("root", rename "Hi") 5000).1 !! "d1".
Proof.
  apply (field_updates_commute both_in 1 2 alice_joined bob_joined "d1" doc
           "root" (rename "Hi") (recolour "#000000") 5000 5100).
  - reflexivity.
  - reflexivity.
  - reflexivity.
  - reflexivity.
  - reflexivity.
  - vm_compute. reflexivity.
  - reflexivity.
  - reflexivity.
  - vm_compute. reflexivity.
Defined.

(** alice renames her document on the dashboard. *)
Lemma saveTitle_renames_witness :
  Response.status
    (put_mindmap start as_alice "d1"
       (PutBody.mk (Some "Roadmap") None None None None None) 6000).2
  = 200%nat.
Proof.
  assert (saveTitle "  Roadmap "
          = Some (PutBody.mk (Some "Roadmap") None None None None None))
    as Hbody by reflexivity.
  assert (Server.db start !! "d1" = Some doc) as Hdb by reflexivity.
  assert (canEdit (ReqUser.id as_alice) doc = true) as Hedit by reflexivity.
  assert (MindMap.valid doc = true) as Hvalid by (vm_compute; reflexivity).
  destruct (saveTitle_renames start as_alice "d1" doc "  Roadmap " 6000)
    as [_ Hrenames].
  by rewrite (Hrenames _ Hbody Hdb Hedit Hvalid).
Defined.


(** An event of bob in an editor of bob changes nothing. *)
Lemma node_updated_in_editor_witness :
  Client.handleNodeUpdated "bob" "root" (rename "Hi") "bob"
                           (Editor.nodes editing)
  = Editor.nodes editing.
Proof.
  destruct (node_updated_in_editor "bob" "root" (rename "Hi") "bob"
              (Editor.nodes editing)) as (_ & Hown & _).
  apply Hown. reflexivity.
Defined.

(** alice renames the selected child: bob's editor follows, an editor of
    alice on another socket would not. *)
Lemma edit_reaches_other_editors_witness :
  ∃ request,
    (Client.saveEdit "Better" editing).2 = Some request
    ∧ let out := (node_update both_in 1 request 5000).2 in
      Client.nodes (receive "bob" (delivered 2 out) bob_view)
      = if Socket.username alice_joined =? "bob" then Editor.nodes editing
        else Editor.nodes (Client.saveEdit "Better" editing).1.
Proof.
  apply (edit_reaches_other_editors both_in 1 alice_joined "d1" editing child
           "Better" 5000 2 "bob" bob_view).
  - reflexivity.
  - reflexivity.
  - reflexivity.
  - apply bob_in_room.
  - lia.
  - reflexivity.
Defined.

(** alice adds a node under the child: bob's editor does not show it and
    the server does not store it. *)
Lemma added_node_stays_local_witness :
  ∃ newNode request,
    addNode 8000 450 330 "#10b981" editing
    = (Editor.mk (Editor.nodes editing ++ [newNode])%list
                 (Editor.links editing
                  ++ [Editor.mk_link (Editor.by_id (Editor.id child))
                                     (Editor.by_id (Editor.id newNode))])%list
                 (Some newNode),
       Some request)
    ∧ Editor.id newNode = "node-" ++ pretty 8000%N
    ∧ let '(st', out) := node_update both_in 1 request 8001 in
      st' = both_in
      ∧ saves out = []
      ∧ delivered 2 out ≠ []
      ∧ receive "bob" (delivered 2 out) bob_view = bob_view.
Proof.
  apply (added_node_stays_local both_in 1 alice_joined "d1" doc editing child
           8000 450 330 "#10b981" 8001 2 "bob" bob_view).
  - reflexivity.
  - reflexivity.
  - reflexivity.
  - reflexivity.
  - apply (bool_decide_unpack _). vm_compute. exact I.
  - apply (bool_decide_unpack _). vm_compute. exact I.
  - apply bob_in_room.
  - lia.
Defined.

(** bob joins a list that names nobody twice. *)
Lemma users_on_line_by_id_witness :
  NoDup (Presence.id
           <$> Client.handleUserJoined (Presence.mk "u-bob" "bob")
                 [Presence.mk "u-alice" "alice"; Presence.mk "u-bob" "bob"]).
Proof.
  apply (users_on_line_by_id (Presence.mk "u-bob" "bob")
           [Presence.mk "u-alice" "alice"; Presence.mk "u-bob" "bob"]).
  apply (bool_decide_unpack _). vm_compute. exact I.
Defined.

(** The child is deleted; its resolved link stays. *)
Lemma deleteNode_links_witness :
  let c' := Editor.deleteNode resolved in
  Editor.selectedNode c' = None
  ∧ (Editor.id child ∉ Editor.id <$> Editor.nodes c')
  ∧ (∀ n, n ∈ Editor.nodes resolved → Editor.id n ≠ Editor.id child →
          n ∈ Editor.nodes c')
  ∧ (∀ l, l ∈ Editor.links c' →
          Editor.source l ≠ Editor.by_id (Editor.id child)
          ∧ Editor.target l ≠ Editor.by_id (Editor.id child))
  ∧ (∀ l n m, l ∈ Editor.links resolved →
              Editor.source l = Editor.by_node n →
              Editor.target l = Editor.by_node m →
              l ∈ Editor.links c'
              ∧ (Link.mk (Editor.id n) (Editor.id m))
                ∈ Client.cleanLinks (Editor.links c')).
Proof.
  apply (deleteNode_links resolved child).
  - reflexivity.
  - vm_compute. discriminate.
Defined.

(** Three calls, 100 and 3000 ms apart, in an editor without an id. *)
Lemma unsaved_never_autosaved_witness :
  Editor.calls (settle None 5000 [100; 3000]%N idle) = Editor.calls idle.
Proof.
  apply (unsaved_never_autosaved None 5000 [100; 3000]%N idle).
  reflexivity.
Defined.

End MoreChecks.
